(** * CN domain categorizer: a shallow embedding of [categorize_cn_domains.py]

    The development follows the script top-down: Python strings, the
    bucket tables, [is_idn], [classify], [multi_sheet_write] and
    [Worker.run].  The third-party calls ([tldextract.extract],
    [idna.encode], [pandas] reading and the Excel writer), [str.lower]
    and [Path.suffix] are the fields of two interfaces, [DomainLib] and
    [TableIO]; the results hold for every implementation of them, and a
    small reference implementation is used to run the model on concrete
    domains. *)

From Stdlib Require Import ZArith NArith QArith Qround Qpower Lqa Ascii String List Lia.
From Stdlib Require DecimalNat.
From stdpp Require Import gmap list fin_maps sorting.

Local Open Scope N_scope.

(** ** Python strings

    A Python [str] is a sequence of Unicode code points. *)

Definition char := N.
Definition str := list char.

(** ASCII literals of the source, written as Rocq strings. *)
Definition lit (s : string) : str :=
  List.map N_of_ascii (list_ascii_of_string s).
Arguments lit s%_string.

(** [str.isascii]: every code point is in U+0000..U+007F (true for the
    empty string). *)
Definition isascii (s : str) : bool := forallb (fun c => c <? 128) s.

(** [s == t] on strings. *)
Definition str_eqb (s t : str) : bool := bool_decide (s = t).

(** [s.startswith(p)] and [s.endswith(p)]. *)
Fixpoint startswith (s p : str) : bool :=
  match p, s with
  | [], _ => true
  | _ :: _, [] => false
  | c :: p', d :: s' => (c =? d) && startswith s' p'
  end.

Definition endswith (s p : str) : bool := startswith (rev s) (rev p).

(** The slice [s[:n]]. *)
Definition slice_to (n : nat) (s : str) : str := take n s.

(** [str.isspace] on one code point: the characters Python treats as
    whitespace. *)
Definition py_isspace (c : char) : bool :=
  ((9 <=? c) && (c <=? 13)) || ((28 <=? c) && (c <=? 32)) ||
  (c =? 133) || (c =? 160) || (c =? 5760) ||
  ((8192 <=? c) && (c <=? 8202)) || (c =? 8232) || (c =? 8233) ||
  (c =? 8239) || (c =? 8287) || (c =? 12288).

Fixpoint lstrip (s : str) : str :=
  match s with
  | c :: s' => if py_isspace c then lstrip s' else s
  | [] => []
  end.

(** [str.strip()] with no argument. *)
Definition strip (s : str) : str := rev (lstrip (rev (lstrip s))).

(** ** Bucket definitions *)

Definition COLUMN : str := lit "Domain Name".

Definition BUCKETS : list str :=
  [ lit "IDN.IDN"; lit "IDN.XN--FIQS8S"; lit "ASCII.XN--FIQS8S";
    lit "ASCII.CN"; lit "IDN.CN"; lit ".COM.CN"; lit ".NET.CN"; lit ".ORG.CN" ].

Definition ALL_BUCKETS : list str := BUCKETS ++ [ lit "UNCLASSIFIED" ].

(** [PUNY = re.compile(r"^xn--", re.I)]; [PUNY.match(label)] succeeds
    when the first four characters are x, n, -, - with the two letters
    in either case ([re.I] on a [str] pattern: a character matches the
    letter when its lower-case form is that letter, which for x and n
    means the letter itself or its ASCII capital). *)
Definition ieq (c : char) (lower_c upper_c : char) : bool :=
  (c =? lower_c) || (c =? upper_c).

Definition PUNY_match (label : str) : bool :=
  match label with
  | c1 :: c2 :: c3 :: c4 :: _ =>
      ieq c1 120 88 && ieq c2 110 78 && (c3 =? 45) && (c4 =? 45)
  | _ => false
  end.

Definition PUNY_TLDS : gset str := {[ lit "xn--fiqs8s"; lit "xn--fiqz9s" ]}.

Definition GENERIC_SLD : gmap str str :=
  <[ lit "com.cn" := lit ".COM.CN" ]>
  (<[ lit "net.cn" := lit ".NET.CN" ]>
  (<[ lit "org.cn" := lit ".ORG.CN" ]> ∅)).

Definition is_idn (label : str) : bool :=
  negb (isascii label) || PUNY_match label.

(** Printable ASCII: U+0020 (space) to U+007E (tilde). *)
Definition printable_ascii (c : char) : bool := (32 <=? c) && (c <=? 126).

(** ASCII case folding of one code point, used to state what
    "compared case-insensitively" means for the [xn--] prefix. *)
Definition ascii_fold (c : char) : char :=
  if (65 <=? c) && (c <=? 90) then c + 32 else c.

(** [label] begins with [p] up to ASCII case. *)
Definition has_prefix_nocase (p label : str) : Prop :=
  exists q rest, label = q ++ rest /\ ascii_fold <$> q = p.

(** ** Exceptions

    The exceptions the script raises or catches.  [OtherError] stands
    for any other subclass of [Exception] coming out of the spreadsheet
    reader or writer; every exception carries the text [str(exc)]
    yields. *)

Inductive exn :=
| IDNAError (msg : str)
| ValueError (msg : str)
| ZeroDivisionError (msg : str)
| AttributeError (msg : str)
| OtherError (msg : str).

Definition exn_str (e : exn) : str :=
  match e with
  | IDNAError m | ValueError m | ZeroDivisionError m | AttributeError m
  | OtherError m => m
  end.

Inductive result (A : Type) :=
| Return (a : A)
| Raise (e : exn).
Arguments Return {A} a.
Arguments Raise {A} e.

Definition rbind {A B} (r : result A) (k : A -> result B) : result B :=
  match r with
  | Return a => k a
  | Raise e => Raise e
  end.

(** [try: body except idna.IDNAError: handler]: only [IDNAError] is
    caught, every other exception propagates. *)
Definition except_IDNAError {A} (body : result A) (handler : result A) : result A :=
  match body with
  | Raise (IDNAError _) => handler
  | r => r
  end.

(** ** The classifier *)

(** [tldextract.ExtractResult]. *)
Record ExtractResult := {
  subdomain : str;
  domain : str;
  suffix : str
}.

(** What [idna.encode(s)] does: it returns the ASCII-compatible form or
    raises [idna.IDNAError] (the base class of every error of that
    library) with some message. *)
Inductive idna_outcome :=
| Encoded (ace : str)
| IDNAFailure (msg : str).

(** The library calls of [classify]. *)
Class DomainLib := {
  (** [tldextract.extract]. *)
  extract : str -> ExtractResult;
  (** [idna.encode]. *)
  idna_encode : str -> idna_outcome;
  (** [str.lower]. *)
  lower : str -> str
}.

(** The three suffix tests of rules 1 to 3, on an extracted suffix. *)
Definition rule1 (sfx : str) : bool := bool_decide (is_Some (GENERIC_SLD !! sfx)).
Definition rule2 (sfx : str) : bool := bool_decide (sfx ∈ PUNY_TLDS).
Definition rule3 (sfx : str) : bool :=
  str_eqb sfx (lit "cn") || endswith sfx (lit ".cn").

Section Classifier.

Context `{DomainLib}.

(** [idna.encode(s).decode()]. *)
Definition idna_encode_decode (s : str) : result str :=
  match idna_encode s with
  | Encoded ace => Return ace
  | IDNAFailure msg => Raise (IDNAError msg)
  end.

(** The body of the [try] block of step 4: [Some b] when the block
    executes [return b], [None] when it runs to its end. *)
Definition step4 (d : str) : result (option str) :=
  rbind (idna_encode_decode d) (fun ace =>
    let ext2 := extract ace in
    if rule2 (suffix ext2) && is_idn (domain ext2)
    then Return (Some (lit "IDN.IDN"))
    else Return None).

Definition classify (d : str) : result str :=
  let ext := extract (lower d) in
  let sld := domain ext in
  let sfx := suffix ext in
  match GENERIC_SLD !! sfx with
  | Some b => Return b
  | None =>
      if rule2 sfx then
        Return (if is_idn sld then lit "IDN.XN--FIQS8S" else lit "ASCII.XN--FIQS8S")
      else if rule3 sfx then
        Return (if is_idn sld then lit "IDN.CN" else lit "ASCII.CN")
      else
        rbind (except_IDNAError (step4 d) (Return None)) (fun r =>
          match r with
          | Some b => Return b
          | None => Return (lit "UNCLASSIFIED")
          end)
  end.

(** The condition under which step 4 returns: the re-encoding
    succeeds, its suffix is one of [PUNY_TLDS] and its label is
    internationalized. *)
Definition rule4 (d : str) : bool :=
  match idna_encode d with
  | Encoded ace => rule2 (suffix (extract ace)) && is_idn (domain (extract ace))
  | IDNAFailure _ => false
  end.

(** No rule of [classify] matches [d]. *)
Definition no_rule_matches (d : str) : bool :=
  let sfx := suffix (extract (lower d)) in
  negb (rule1 sfx) && negb (rule2 sfx) && negb (rule3 sfx) && negb (rule4 d).

End Classifier.

(** ** Python floats

    [i / max(total, 1) * 100] is computed in IEEE-754 binary64.  A float
    is represented by the rational it denotes, and every operation is
    the exact rational operation followed by [round], rounding to the
    nearest binary64 value with ties to even (53-bit significand,
    smallest exponent -1074).  Overflow to infinity is left out: the
    values the script computes lie between 0 and 100. *)

Module Float64.

Local Open Scope Q_scope.

(** floor (log2 q) for a positive rational [q]. *)
Definition ilog2 (q : Q) : Z :=
  let k := (Z.log2 (Qnum q) - Z.log2 (Zpos (Qden q)))%Z in
  if Qle_bool (2 ^ k) q then k else (k - 1)%Z.

(** Exponent of the unit in the last place of the binade of [q]. *)
Definition ulp_exp (q : Q) : Z := Z.max (ilog2 q - 52) (-1074).

(** Nearest integer, ties to even. *)
Definition rne (s : Q) : Z :=
  let f := Qfloor s in
  match Qcompare (s - inject_Z f) (1 # 2) with
  | Lt => f
  | Gt => (f + 1)%Z
  | Eq => if Z.even f then f else (f + 1)%Z
  end.

Definition round_pos (q : Q) : Q :=
  let e := ulp_exp q in inject_Z (rne (q / 2 ^ e)) * 2 ^ e.

Definition round (q : Q) : Q :=
  match Qnum q with
  | Z0 => 0
  | Zpos _ => round_pos q
  | Zneg _ => - round_pos (- q)
  end.

(** [float(n)] for an [int]. *)
Definition of_int (n : Z) : Q := round (inject_Z n).

(** [x * y] on floats. *)
Definition mul (x y : Q) : Q := round (x * y).

(** [int(x)]: truncation toward zero. *)
Definition to_int (x : Q) : Z :=
  if Qle_bool 0 x then Qfloor x else Qceiling x.

End Float64.

(** [a / b] on two [int]s: the correctly rounded quotient, or
    [ZeroDivisionError]. *)
Definition int_truediv (a b : Z) : result Q :=
  if (b =? 0)%Z then Raise (ZeroDivisionError (lit "division by zero"))
  else Return (Float64.round (inject_Z a / inject_Z b)).

(** [int(i / max(total, 1) * 100)]. *)
Definition percent (i total : nat) : result Z :=
  rbind (int_truediv (Z.of_nat i) (Z.max (Z.of_nat total) 1)) (fun x =>
    Return (Float64.to_int (Float64.mul x (Float64.of_int 100)))).

(** The number [percent] returns when the division goes through. *)
Definition percent_value (i total : nat) : Z :=
  Float64.to_int
    (Float64.mul
       (Float64.round (inject_Z (Z.of_nat i) / inject_Z (Z.max (Z.of_nat total) 1)))
       (Float64.of_int 100)).

(** ** Data frames

    A [pandas.DataFrame] with the default [RangeIndex]: the column names
    and, per row, the cells by column name.  A cell holds its value as
    text; a row without a cell for a column has a missing value (NaN)
    there, which is what a blank field of the input file is read as. *)

Record DataFrame := {
  columns : list str;
  rows : list (gmap str str)
}.

(** [len(df)]. *)
Definition df_len (df : DataFrame) : nat := length (rows df).

(** The column [c] with a missing cell printed as ["nan"], the text
    [str] gives for NaN.  This is the column as [Worker.run] and
    [multi_sheet_write] use it once [df["bucket"] = ""] has put a cell
    in every row; what the loop of [Worker.run] reads from the
    "Domain Name" column is [df_text_col] below. *)
Definition df_col (df : DataFrame) (c : str) : list str :=
  (fun r : gmap str str => default (lit "nan") (r !! c)) <$> rows df.

(** [df[c] = v] with a scalar [v]: the column is created, or
    overwritten if it exists, and filled with [v]. *)
Definition df_set_col (df : DataFrame) (c v : str) : DataFrame :=
  {| columns := if bool_decide (c ∈ columns df) then columns df else columns df ++ [c];
     rows := (fun r : gmap str str => <[c := v]> r) <$> rows df |}.

(** [df.at[i, c] = v] for a row label [i] of the frame.  (For a label
    that is not in the index pandas appends a row; [Worker.run] only
    uses labels below [len(df)].) *)
Definition df_at_set (df : DataFrame) (i : nat) (c v : str) : DataFrame :=
  {| columns := columns df;
     rows := alter (fun r : gmap str str => <[c := v]> r) i (rows df) |}.

(** [df[df[c] == v]]. *)
Definition df_where (df : DataFrame) (c v : str) : DataFrame :=
  {| columns := columns df;
     rows := filter (fun r : gmap str str => default (lit "nan") (r !! c) = v) (rows df) |}.

(** [df.empty]. *)
Definition df_empty (df : DataFrame) : bool :=
  match rows df with [] => true | _ => false end.

(** [series.value_counts().to_dict()]. *)
Definition value_counts (col : list str) : gmap str nat :=
  foldr (fun v (m : gmap str nat) => <[v := S (default 0%nat (m !! v))]> m) ∅ col.

(** ** Signals, files and the worker monad *)

Definition Path := str.

Record Sheet := {
  sheet_name : str;
  sheet_data : DataFrame
}.

(** What the thread does to the outside: the two Qt signals and what
    the [ExcelWriter] block does to the file at its destination.
    [Saved dest book] is a block that was left normally, with the
    complete workbook at [dest]; [Clobbered dest] is a block left by an
    exception after the writer had created or overwritten the file at
    [dest], whose content is then whatever the writer got to put
    there. *)
Inductive event :=
| Progress (pct : Z)
| Finished (outfile : Path) (error : str) (counts : gmap str nat)
| Saved (dest : Path) (book : list Sheet)
| Clobbered (dest : Path).

(** Computations that emit events and may raise; events emitted before
    an exception stay emitted. *)
Definition M (A : Type) : Type := list event -> result A * list event.

Definition ret {A} (a : A) : M A := fun tr => (Return a, tr).
Definition raise {A} (e : exn) : M A := fun tr => (Raise e, tr).
Definition bind {A B} (m : M A) (k : A -> M B) : M B :=
  fun tr => match m tr with
            | (Return a, tr') => k a tr'
            | (Raise e, tr') => (Raise e, tr')
            end.
Definition lift {A} (r : result A) : M A := fun tr => (r, tr).
Definition emit (ev : event) : M unit := fun tr => (Return tt, tr ++ [ev]).

(** [try: body except Exception as exc: handler exc]. *)
Definition try_except {A} (body : M A) (handler : exn -> M A) : M A :=
  fun tr => match body tr with
            | (Raise e, tr') => handler e tr'
            | r => r
            end.

Declare Scope worker_scope.
Delimit Scope worker_scope with worker.
Notation "x <- m ;; k" := (bind m (fun x => k))
  (at level 100, m at next level, right associativity) : worker_scope.
Notation "m ;; k" := (bind m (fun _ => k))
  (at level 100, right associativity) : worker_scope.

(** ** The report writer *)

(** The body of the [for bucket in ALL_BUCKETS] loop of
    [multi_sheet_write]; [book] is the list of sheets the writer holds. *)
Fixpoint write_sheets (df : DataFrame) (buckets : list str) (book : list Sheet)
  : list Sheet :=
  match buckets with
  | [] => book
  | bucket :: rest =>
      let sub := df_where df (lit "bucket") bucket in
      write_sheets df rest
        (if negb (df_empty sub)
         then book ++ [ {| sheet_name := slice_to 31 bucket; sheet_data := sub |} ]
         else book)
  end.

(** The values carried by the [progress] signal, in emission order. *)
Definition progress_of (evs : list event) : list Z :=
  omap (fun ev => match ev with Progress p => Some p | _ => None end) evs.

Definition is_finished (ev : event) : bool :=
  match ev with Finished _ _ _ => true | _ => false end.

(** The workbooks saved completely, in order. *)
Definition saved_of (evs : list event) : list (Path * list Sheet) :=
  omap (fun ev => match ev with Saved d b => Some (d, b) | _ => None end) evs.

(** The values the loop reports for the rows [i], ..., [i + n - 1] of
    a table of [total] rows: one for every row index divisible by 50. *)
Definition checkpoints (total i n : nat) : list Z :=
  (fun j => percent_value j total) <$> filter (fun j => (j mod 50 = 0)%nat) (seq i n).

(** [f"Input must contain a '{COLUMN}' column."] *)
Definition schema_message : str :=
  lit "Input must contain a '" ++ COLUMN ++ lit "' column.".

(** [bucket] has at least one row in [df]. *)
Definition has_rows (df : DataFrame) (bucket : str) : bool :=
  negb (df_empty (df_where df (lit "bucket") bucket)).

(** The sheet [multi_sheet_write] hands to the writer for [bucket]. *)
Definition sheet_for (df : DataFrame) (bucket : str) : Sheet :=
  {| sheet_name := slice_to 31 bucket;
     sheet_data := df_where df (lit "bucket") bucket |}.

Record Worker := {
  infile : Path;
  outfile : Path
}.

(** The file and spreadsheet calls of [Worker.run]. *)
Class TableIO := {
  (** [Path.suffix]. *)
  path_suffix : Path -> str;
  (** [pd.read_csv] and [pd.read_excel]. *)
  read_csv : Path -> result DataFrame;
  read_excel : Path -> result DataFrame;
  (** Whether [astype(str)] leaves a missing cell missing, as pandas 3
      does with its string data type, instead of turning it into the
      text ["nan"], as the versions before it do. *)
  astype_str_keeps_na : bool;
  (** The [with pd.ExcelWriter(dest, engine="openpyxl")] block run with
      the given sheets: the writer is opened on [dest], takes a
      [to_excel] call per sheet and saves on leaving the block.  It
      returns when all of that succeeds, and otherwise raises the
      exception the block is left with. *)
  excel_save : Path -> list Sheet -> result unit;
  (** Whether a block that raises has by then created or overwritten
      the file at [dest]: the writer opens its destination for writing
      when it is constructed and saves what it holds when the block is
      left, also after an exception. *)
  excel_touches : Path -> list Sheet -> bool
}.

(** [df[c].astype(str)] as the loop of [Worker.run] sees it: the text of
    each cell, [None] for a cell that is still missing after the
    conversion. *)
Definition df_text_col `{TableIO} (df : DataFrame) (c : str) : list (option str) :=
  (fun r : gmap str str =>
     match r !! c with
     | Some v => Some v
     | None => if astype_str_keeps_na then None else Some (lit "nan")
     end) <$> rows df.

(** [series.str.strip()]: a missing value stays missing. *)
Definition str_strip (col : list (option str)) : list (option str) :=
  (fun v : option str => strip <$> v) <$> col.

(** [df[COLUMN].astype(str).str.strip()], the values the loop of
    [Worker.run] iterates over. *)
Definition loop_values `{TableIO} (df : DataFrame) : list (option str) :=
  str_strip (df_text_col df COLUMN).

Definition is_text (v : option str) : bool :=
  match v with Some _ => true | None => false end.

(** The number of values before the first missing one. *)
Fixpoint texts_before (vs : list (option str)) : nat :=
  match vs with
  | Some _ :: vs' => S (texts_before vs')
  | _ => 0%nat
  end.

(** What [domain.lower()] raises at the first line of [classify] when
    [domain] is a NaN, which is a [float]. *)
Definition float_has_no_lower : str :=
  lit "'float' object has no attribute 'lower'".

(** [classify(dom)] for a value of the loop: a text is classified, a
    missing value makes the call raise [AttributeError]. *)
Definition classify_value `{DomainLib} (dom : option str) : result str :=
  match dom with
  | Some d => classify d
  | None => Raise (AttributeError float_has_no_lower)
  end.

Section Batch.

Context `{DomainLib} `{TableIO}.

Local Open Scope worker_scope.

Definition multi_sheet_write (df : DataFrame) (dest : Path) : M unit :=
  let book := write_sheets df ALL_BUCKETS [] in
  try_except
    (lift (excel_save dest book) ;;
     emit (Saved dest book))
    (fun exc =>
       (if excel_touches dest book then emit (Clobbered dest) else ret tt) ;;
       raise exc).

(** The [for i, dom in enumerate(...)] loop of [Worker.run], from
    index [i] on. *)
Fixpoint run_loop (total i : nat) (doms : list (option str)) (df : DataFrame)
  : M DataFrame :=
  match doms with
  | [] => ret df
  | dom :: rest =>
      b <- lift (classify_value dom) ;;
      let df := df_at_set df i (lit "bucket") b in
      (if (i mod 50 =? 0)%nat
       then (p <- lift (percent i total) ;; emit (Progress p))
       else ret tt) ;;
      run_loop total (S i) rest df
  end.

(** The table read at the first line of [Worker.run]. *)
Definition read_infile (self : Worker) : result DataFrame :=
  (if str_eqb (lower (path_suffix (infile self))) (lit ".csv")
   then read_csv else read_excel) (infile self).

(** The body of the [try] block of [Worker.run]. *)
Definition run_body (self : Worker) : M unit :=
  df <- lift (read_infile self) ;;
  (if negb (bool_decide (COLUMN ∈ columns df))
   then raise (ValueError schema_message)
   else ret tt) ;;
  let total := df_len df in
  let df := df_set_col df (lit "bucket") [] in
  df <- run_loop total 0 (loop_values df) df ;;
  emit (Progress 100) ;;
  multi_sheet_write df (outfile self) ;;
  let counts := value_counts (df_col df (lit "bucket")) in
  let counts := <[lit "TOTAL" := total]> counts in
  emit (Finished (outfile self) [] counts).

Definition run (self : Worker) : M unit :=
  try_except (run_body self)
    (fun exc => emit (Finished (outfile self) (exn_str exc) ∅)).

(** The events of one run of the thread. *)
Definition run_events (self : Worker) : list event := snd (run self []).

End Batch.

(** ** The loop without its signals

    What the loop of [Worker.run] leaves in the frame when it runs to
    its end, as pure functions; the facts below relate them to
    [run_loop].  The loop runs to its end when no value of
    [loop_values] is missing, and the values are then the stripped
    texts of [df_col]. *)

(** The label [classify] returns. *)
Definition bucket_of `{DomainLib} (d : str) : str :=
  match classify d with
  | Return b => b
  | Raise _ => lit "UNCLASSIFIED"
  end.

(** [df.at[i, "bucket"] = b] for the labels [bs] from row [i] on. *)
Fixpoint labelled (i : nat) (bs : list str) (df : DataFrame) : DataFrame :=
  match bs with
  | [] => df
  | b :: bs' => labelled (S i) bs' (df_at_set df i (lit "bucket") b)
  end.

(** The frame after a loop that ran to its end. *)
Definition classified `{DomainLib} (df : DataFrame) : DataFrame :=
  let df' := df_set_col df (lit "bucket") [] in
  labelled 0 ((fun v => bucket_of (strip v)) <$> df_col df' COLUMN) df'.

(** The events of a run whose loop ran to its end, up to and
    including the final [progress.emit(100)]. *)
Definition loop_events (df : DataFrame) : list event :=
  (Progress <$> checkpoints (df_len df) 0 (df_len df)) ++ [Progress 100].

(** What a writer block that raises leaves in the trace. *)
Definition clobbers `{TableIO} (dest : Path) (book : list Sheet) : list event :=
  if excel_touches dest book then [Clobbered dest] else [].

(** The dictionary sent with the [finished] signal of a successful
    run. *)
Definition final_counts `{DomainLib} (df : DataFrame) : gmap str nat :=
  <[lit "TOTAL" := df_len df]> (value_counts (df_col (classified df) (lit "bucket"))).

(** ** A reference implementation of the libraries

    Small executable stand-ins for the library calls, used to run the
    model on concrete inputs.  [psl_extract] applies the public-suffix
    algorithm of [tldextract] (longest listed suffix, matched on
    lower-cased labels) to plain dotted host names over the handful of
    suffixes in [psl]; [idna_table_encode] knows the labels of
    [alabels] and otherwise follows the IDNA 2008 rules that matter
    here: an ASCII label of letters, digits and hyphens passes unchanged, a
    label with a non-ASCII
    character must not contain an upper-case letter. *)

Module Ref.

Fixpoint split_on (sep : char) (s : str) : list str :=
  match s with
  | [] => [[]]
  | c :: s' =>
      if c =? sep then [] :: split_on sep s'
      else match split_on sep s' with
           | l :: ls => (c :: l) :: ls
           | [] => [[c]]
           end
  end.

Fixpoint join (sep : char) (ls : list str) : str :=
  match ls with
  | [] => []
  | [l] => l
  | l :: ls' => l ++ sep :: join sep ls'
  end.

Definition dot : char := 46.

(** [str.lower] on code points below U+0100; other code points are
    left alone (right for caseless scripts such as CJK). *)
Definition lower_char (c : char) : char :=
  if ((65 <=? c) && (c <=? 90)) || ((192 <=? c) && (c <=? 222) && negb (c =? 215))
  then c + 32 else c.

Definition latin1_lower (s : str) : str := lower_char <$> s.

(** U+4E2D U+56FD and U+4E2D U+570B, the two Chinese-script country
    names. *)
Definition zhongguo_s : str := [20013; 22269].
Definition zhongguo_t : str := [20013; 22283].

Definition psl : list str :=
  [ lit "cn"; lit "com.cn"; lit "net.cn"; lit "org.cn"; lit "xj.cn"; lit "gs.cn";
    lit "com"; lit "net"; lit "org";
    zhongguo_s; zhongguo_t; lit "xn--fiqs8s"; lit "xn--fiqz9s" ].

(** Index of the first label of the longest listed suffix of
    [labels], counted from [k]; [k + length labels] when there is
    none. *)
Fixpoint suffix_index (k : nat) (labels : list str) : nat :=
  match labels with
  | [] => k
  | _ :: rest =>
      if bool_decide (latin1_lower (join dot labels) ∈ psl) then k
      else suffix_index (S k) rest
  end.

Definition psl_extract (s : str) : ExtractResult :=
  let labels := split_on dot s in
  let k := suffix_index 0 labels in
  {| subdomain := join dot (take (k - 1) labels);
     domain := match k with
               | O => []
               | S k' => default [] (labels !! k')
               end;
     suffix := join dot (drop k labels) |}.

(** Known U-labels with their A-labels. *)
Definition alabels : list (str * str) :=
  [ ([20363; 23376], lit "xn--fsqu00a");
    (zhongguo_s, lit "xn--fiqs8s");
    (zhongguo_t, lit "xn--fiqz9s");
    ([228], lit "xn--4ca");
    ([107; 246; 110; 105; 103; 115; 103; 228; 223; 99; 104; 101; 110],
     lit "xn--knigsgchen-b4a3dun") ].

Definition ascii_label_ok (l : str) : bool :=
  negb (bool_decide (l = [])) &&
  forallb (fun c => ((97 <=? c) && (c <=? 122)) || ((65 <=? c) && (c <=? 90)) ||
                    ((48 <=? c) && (c <=? 57)) || (c =? 45)) l.

Definition encode_label (l : str) : option str :=
  if isascii l then (if ascii_label_ok l then Some l else None)
  else if bool_decide (latin1_lower l = l)
       then snd <$> List.find (fun p => bool_decide (fst p = l)) alabels
       else None.

Fixpoint encode_labels (ls : list str) : option (list str) :=
  match ls with
  | [] => Some []
  | l :: ls' =>
      match encode_label l, encode_labels ls' with
      | Some a, Some r => Some (a :: r)
      | _, _ => None
      end
  end.

Definition idna_table_encode (s : str) : idna_outcome :=
  match encode_labels (split_on dot s) with
  | Some ls => Encoded (join dot ls)
  | None => IDNAFailure (lit "Codepoint not allowed")
  end.

Definition domain_lib : DomainLib :=
  {| extract := psl_extract;
     idna_encode := idna_table_encode;
     lower := latin1_lower |}.

(** [Path.suffix]: the last dot of the final path component and what
    follows it, unless that dot starts or ends the component. *)
Definition posix_suffix (p : Path) : str :=
  let name := List.last (split_on 47 p) [] in
  match rev (split_on dot name) with
  | ext :: stem :: more =>
      if bool_decide (ext = []) || bool_decide (join dot (rev (stem :: more)) = [])
      then [] else dot :: ext
  | _ => []
  end.

(** A file system holding one table at one path. *)
Definition read_from (p0 : Path) (df : DataFrame) (p : Path) : result DataFrame :=
  if bool_decide (p = p0) then Return df
  else Raise (OtherError (lit "No such file or directory")).

(** The [openpyxl] writer refuses to save a workbook without sheets;
    by then it has opened its destination. *)
Definition save_nonempty (dest : Path) (book : list Sheet) : result unit :=
  match book with
  | [] => Raise (OtherError (lit "At least one sheet must be visible"))
  | _ => Return tt
  end.

(** The files: the table [df] stored at [in.csv]. *)
Definition table_io (df : DataFrame) : TableIO :=
  {| path_suffix := posix_suffix;
     read_csv := read_from (lit "in.csv") df;
     read_excel := read_from (lit "in.csv") df;
     astype_str_keeps_na := false;
     excel_save := save_nonempty;
     excel_touches := fun _ _ => true |}.

Definition classify : str -> result str := @classify domain_lib.

(** A table with one column [c] holding the values [vs]. *)
Definition table (c : str) (vs : list str) : DataFrame :=
  {| columns := [c];
     rows := (fun v => {[ c := v ]}) <$> vs |}.

(** "Königsgäßchen" followed by a dot and U+4E2D U+56FD: a label
    with an upper-case letter under the Chinese-script suffix. *)
Definition konigsgasschen_cn : str :=
  [75; 246; 110; 105; 103; 115; 103; 228; 223; 99; 104; 101; 110; 46; 20013; 22269].

(** Three sample tables: one without the required column, one with
    four domains, one with the column and no rows. *)
Definition no_column_table : DataFrame := table (lit "Domain") [lit "example.cn"].
Definition sample_table : DataFrame :=
  table COLUMN [lit " example.com.cn "; lit "foo.cn"; lit "x.org"; lit "EXAMPLE.COM.CN"].
Definition empty_table : DataFrame := table COLUMN [].

(** A table of two rows whose second "Domain Name" field is blank. *)
Definition blank_cell_table : DataFrame :=
  {| columns := [COLUMN];
     rows := [ {[ COLUMN := lit "example.cn" ]}; ∅ ] |}.

(** The same files read with a pandas whose [astype(str)] keeps a
    missing cell missing. *)
Definition table_io_na (df : DataFrame) : TableIO :=
  {| path_suffix := posix_suffix;
     read_csv := read_from (lit "in.csv") df;
     read_excel := read_from (lit "in.csv") df;
     astype_str_keeps_na := true;
     excel_save := save_nonempty;
     excel_touches := fun _ _ => true |}.

Definition worker : Worker :=
  {| infile := lit "in.csv"; outfile := lit "out.xlsx" |}.

(** One run of the thread on a CSV file holding [df]. *)
Definition run_on (df : DataFrame) : list event :=
  @run_events domain_lib (table_io df) worker.

Definition run_on_na (df : DataFrame) : list event :=
  @run_events domain_lib (table_io_na df) worker.

End Ref.

(** ** A labelled row

    What the loop of [Worker.run] makes of one row: the "bucket" cell
    is set to the label of the stripped "Domain Name" cell. *)
Definition label_row `{DomainLib} (r : gmap str str) : gmap str str :=
  <[lit "bucket" := bucket_of (strip (default (lit "nan") (r !! COLUMN)))]> r.

(** ** The main window

    The window [App]: its two text fields, the progress bar, the Run button and
    the worker it started.  What the window shows or launches is kept
    as a list of [ui_event]s.  The calls into [pathlib], [datetime],
    [sys] and [os.path] are the fields of [Desktop]. *)

Class Desktop := {
  (** [Path(text)]. *)
  path_of : str -> Path;
  (** [Path.exists]. *)
  path_exists : Path -> bool;
  (** [Path.home()]. *)
  home : Path;
  (** [path / name]. *)
  path_join : Path -> str -> Path;
  (** [datetime.date.today().strftime("%Y%m%d")]. *)
  today : str;
  (** [sys.platform]. *)
  platform : str;
  (** [os.path.normpath]. *)
  normpath : Path -> str
}.

Record AppState := {
  in_edit : str;
  out_edit : str;
  bar : Z;
  run_btn : bool;
  worker : option Worker
}.

Inductive ui_event :=
| WarningBox (title text : str)
| CriticalBox (title text : str)
| DoneBox (title text : str)
| Started (w : Worker)
| Spawned (cmd : str).

(** Decimal digits of [n], most significant first. *)
Fixpoint uint_chars (u : Decimal.uint) : str :=
  match u with
  | Decimal.Nil => []
  | Decimal.D0 u => 48 :: uint_chars u
  | Decimal.D1 u => 49 :: uint_chars u
  | Decimal.D2 u => 50 :: uint_chars u
  | Decimal.D3 u => 51 :: uint_chars u
  | Decimal.D4 u => 52 :: uint_chars u
  | Decimal.D5 u => 53 :: uint_chars u
  | Decimal.D6 u => 54 :: uint_chars u
  | Decimal.D7 u => 55 :: uint_chars u
  | Decimal.D8 u => 56 :: uint_chars u
  | Decimal.D9 u => 57 :: uint_chars u
  end.

Definition decimal (n : nat) : str := uint_chars (Nat.to_uint n).

(** A comma before every digit that follows a full group of three;
    [ds] holds the digits from the least significant on and [k] counts
    the digits of the current group. *)
Fixpoint group3 (k : nat) (ds : str) : str :=
  match ds with
  | [] => []
  | d :: rest =>
      if (k =? 3)%nat then 44 :: d :: group3 1 rest else d :: group3 (S k) rest
  end.

(** [f"{n:,}"] for a non-negative [int]. *)
Definition format_thousands (n : nat) : str := rev (group3 0 (rev (decimal n))).

(** Reading digits back, as [int(s.replace(",", ""))] does. *)
Fixpoint chars_uint (s : str) : option Decimal.uint :=
  match s with
  | [] => Some Decimal.Nil
  | c :: s' =>
      u ← chars_uint s';
      if c =? 48 then Some (Decimal.D0 u) else
      if c =? 49 then Some (Decimal.D1 u) else
      if c =? 50 then Some (Decimal.D2 u) else
      if c =? 51 then Some (Decimal.D3 u) else
      if c =? 52 then Some (Decimal.D4 u) else
      if c =? 53 then Some (Decimal.D5 u) else
      if c =? 54 then Some (Decimal.D6 u) else
      if c =? 55 then Some (Decimal.D7 u) else
      if c =? 56 then Some (Decimal.D8 u) else
      if c =? 57 then Some (Decimal.D9 u) else None
  end.

Definition parse_thousands (s : str) : option nat :=
  Nat.of_uint <$> chars_uint (filter (fun c => c <> 44) s).

(** [f"{s:<w}"]: [s] padded with spaces on the right to width [w]. *)
Definition ljust (w : nat) (s : str) : str := s ++ replicate (w - length s) 32.

(** [sep.join(ls)]. *)
Fixpoint str_join (sep : str) (ls : list str) : str :=
  match ls with
  | [] => []
  | [l] => l
  | l :: ls' => l ++ sep ++ str_join sep ls'
  end.

(** The list comprehension of [_done]: one line per bucket with a
    non-zero count, in the order of [ALL_BUCKETS]. *)
Definition breakdown (counts : gmap str nat) : list str :=
  (fun b => ljust 22 b ++ lit " " ++ format_thousands (default 0%nat (counts !! b))) <$>
  filter (fun b => default 0%nat (counts !! b) <> 0%nat) ALL_BUCKETS.

(** The text of the "Done" box. *)
Definition summary (outfile : Path) (counts : gmap str nat) : str :=
  let total := default 0%nat (counts !! lit "TOTAL") in
  let lines :=
    [ lit "Workbook saved to:" ++ [10] ++ outfile ++ [10];
      lit "Total processed: " ++ format_thousands total ++ [10] ] in
  let lines :=
    if negb (bool_decide (breakdown counts = []))
    then lines ++ [lit "Break-down" ++ [10] ++ replicate 10 9472] ++ breakdown counts
    else lines in
  str_join [10] lines.

Module App.

Section Window.

Context `{Desktop}.

Definition _suggest_out (self : AppState) (infile : Path) : AppState :=
  let name := lit "sorted_CN_domains_" ++ today ++ lit ".xlsx" in
  let target :=
    if path_exists (path_join home (lit "Downloads"))
    then path_join home (lit "Downloads") else home in
  {| in_edit := in_edit self; out_edit := path_join target name;
     bar := bar self; run_btn := run_btn self; worker := worker self |}.

(** [_pick_in] and [_pick_out], given the path the file dialog
    returned (empty when the dialog was cancelled). *)
Definition _pick_in (path : str) (self : AppState) : AppState :=
  if negb (bool_decide (path = [])) then
    _suggest_out
      {| in_edit := path; out_edit := out_edit self;
         bar := bar self; run_btn := run_btn self; worker := worker self |}
      (path_of path)
  else self.

Definition _pick_out (path : str) (self : AppState) : AppState :=
  if negb (bool_decide (path = [])) then
    {| in_edit := in_edit self; out_edit := path;
       bar := bar self; run_btn := run_btn self; worker := worker self |}
  else self.

Definition _run (self : AppState) : AppState * list ui_event :=
  let in_path := path_of (strip (in_edit self)) in
  if negb (path_exists in_path) then
    (self, [WarningBox (lit "Error") (lit "Select a valid input file.")])
  else
    let self1 :=
      if negb (bool_decide (strip (out_edit self) = [])) then self
      else _suggest_out self in_path in
    let out_path :=
      if negb (bool_decide (strip (out_edit self) = []))
      then path_of (strip (out_edit self))
      else path_of (out_edit self1) in
    let w := {| infile := in_path; outfile := out_path |} in
    ({| in_edit := in_edit self1; out_edit := out_edit self1;
        bar := bar self1; run_btn := false; worker := Some w |},
     [Started w]).

Definition _done (outfile : Path) (error : str) (counts : gmap str nat) (self : AppState)
  : AppState * list ui_event :=
  let self :=
    {| in_edit := in_edit self; out_edit := out_edit self;
       bar := 0; run_btn := true; worker := worker self |} in
  if negb (bool_decide (error = [])) then
    (self, [CriticalBox (lit "Failed") error])
  else
    (self,
     DoneBox (lit "Done") (summary outfile counts) ::
     (if startswith platform (lit "win")
      then [Spawned (lit "explorer /select," ++ [34] ++ normpath outfile ++ [34])]
      else [])).

(** The slots connected in [_run]: [progress] sets the bar, [finished]
    calls [_done]. *)
Definition on_signal (ev : event) (self : AppState) : AppState * list ui_event :=
  match ev with
  | Progress p =>
      ({| in_edit := in_edit self; out_edit := out_edit self;
          bar := p; run_btn := run_btn self; worker := worker self |}, [])
  | Finished outfile error counts => _done outfile error counts self
  | Saved _ _ | Clobbered _ => (self, [])
  end.

(** The signals of a run handled one after the other, in the order of
    emission. *)
Fixpoint deliver (evs : list event) (self : AppState) : AppState * list ui_event :=
  match evs with
  | [] => (self, [])
  | ev :: rest =>
      let '(self1, ui1) := on_signal ev self in
      let '(self2, ui2) := deliver rest self1 in
      (self2, ui1 ++ ui2)
  end.

End Window.

(** A click on Run followed by the signals of the worker it started. *)
Definition session `{DomainLib} `{TableIO} `{Desktop} (self : AppState)
  : AppState * list ui_event :=
  let '(self1, ui1) := _run self in
  match ui1 with
  | [Started w] =>
      let '(self2, ui2) := deliver (run_events w) self1 in
      (self2, ui1 ++ ui2)
  | _ => (self1, ui1)
  end.

End App.

(** The three message boxes. *)
Definition is_box (u : ui_event) : bool :=
  match u with
  | WarningBox _ _ | CriticalBox _ _ | DoneBox _ _ => true
  | _ => false
  end.

(** The break-down line that corresponds to a sheet of the workbook. *)
Definition sheet_line (s : Sheet) : str :=
  ljust 22 (sheet_name s) ++ lit " " ++ format_thousands (length (rows (sheet_data s))).

(** ** A reference desktop

    A Linux desktop on 14 May 2025 whose only files are [in.csv] and
    the home directory; paths are kept as typed. *)

Module RefDesk.

Definition desktop : Desktop :=
  {| path_of := fun s => s;
     path_exists := fun p => bool_decide (p ∈ [lit "in.csv"; lit "/home/user"]);
     home := lit "/home/user";
     path_join := fun p name => p ++ [47] ++ name;
     today := lit "20250514";
     platform := lit "linux";
     normpath := fun p => p |}.

(** A worker pointed at a file that is not there. *)
Definition lost_worker : Worker :=
  {| infile := lit "missing.csv"; outfile := lit "out.xlsx" |}.

(** Readers that fail with an exception whose text is empty. *)
Definition silent_io : TableIO :=
  {| path_suffix := Ref.posix_suffix;
     read_csv := fun _ => Raise (OtherError []);
     read_excel := fun _ => Raise (OtherError []);
     astype_str_keeps_na := false;
     excel_save := Ref.save_nonempty;
     excel_touches := fun _ _ => true |}.

(** The window before a click on Run, with [in.csv] typed in. *)
Definition window : AppState :=
  {| in_edit := lit " in.csv "; out_edit := []; bar := 0; run_btn := true;
     worker := None |}.

End RefDesk.

(** * Facts

    ** Rounding to binary64 *)

Module Float64Facts.
Import Float64.
Local Open Scope Q_scope.

Lemma rne_floor_or_succ (s : Q) : rne s = Qfloor s \/ rne s = (Qfloor s + 1)%Z.
Proof.
  unfold rne. destruct (Qcompare _ _); [destruct (Z.even _)| |]; auto.
Qed.

Lemma rne_inject_Z (n : Z) : rne (inject_Z n) = n.
Proof.
  unfold rne. rewrite Qfloor_Z.
  assert (H : inject_Z n - inject_Z n < 1 # 2).
  { unfold Qminus. rewrite Qplus_opp_r. reflexivity. }
  rewrite (proj1 (Qlt_alt _ _) H). reflexivity.
Qed.

Lemma rne_mono (s t : Q) : s <= t -> (rne s <= rne t)%Z.
Proof.
  intros Hst.
  pose proof (Qfloor_resp_le _ _ Hst) as Hf.
  destruct (Z.eq_dec (Qfloor s) (Qfloor t)) as [Heq | Hne].
  - unfold rne. rewrite <- Heq.
    assert (Hfrac : s - inject_Z (Qfloor s) <= t - inject_Z (Qfloor s)).
    { apply Qplus_le_l with (z := inject_Z (Qfloor s)). ring_simplify. exact Hst. }
    destruct (Qcompare (s - inject_Z (Qfloor s)) (1 # 2)) eqn:Cs;
      destruct (Qcompare (t - inject_Z (Qfloor s)) (1 # 2)) eqn:Ct;
      try (destruct (Z.even (Qfloor s))); try lia.
    all: try (apply (proj2 (Qeq_alt _ _)) in Cs); try (apply (proj2 (Qlt_alt _ _)) in Cs);
         try (apply (proj2 (Qgt_alt _ _)) in Cs);
         try (apply (proj2 (Qeq_alt _ _)) in Ct); try (apply (proj2 (Qlt_alt _ _)) in Ct);
         try (apply (proj2 (Qgt_alt _ _)) in Ct).
    all: lra.
  - destruct (rne_floor_or_succ s) as [-> | ->], (rne_floor_or_succ t) as [-> | ->]; lia.
Qed.

Lemma pow2_pos (e : Z) : 0 < 2 ^ e.
Proof. apply Qpower_0_lt. reflexivity. Qed.

Lemma pow2_succ (e : Z) : 2 ^ (e + 1) == 2 * 2 ^ e.
Proof. rewrite Qpower_plus by discriminate. simpl. ring. Qed.

Lemma pow2_le (n m : Z) : (n <= m)%Z -> 2 ^ n <= 2 ^ m.
Proof. intros H. apply Qpower_le_compat_l; [exact H | discriminate]. Qed.

Lemma pow2_log2 (a : Z) : (0 < a)%Z ->
  2 ^ Z.log2 a <= inject_Z a /\ inject_Z a < 2 * 2 ^ Z.log2 a.
Proof.
  intros Ha. destruct (Z.log2_spec a Ha) as [Hl Hu].
  pose proof (Z.log2_nonneg a) as Hn.
  rewrite <- pow2_succ.
  change 2 with (inject_Z 2).
  rewrite <- !Zpower_Qpower by lia.
  rewrite <- Zle_Qle, <- Zlt_Qlt. split; [exact Hl | exact Hu].
Qed.

Lemma Qdiv_le_cross (a b c d : Q) :
  0 < b -> 0 < d -> a * d <= c * b -> a / b <= c / d.
Proof.
  intros Hb Hd H. apply Qle_shift_div_l; [exact Hd|].
  assert (E : a / b * d == a * d / b) by (field; lra).
  rewrite E. apply Qle_shift_div_r; assumption.
Qed.

Lemma Qdiv_lt_cross (a b c d : Q) :
  0 < b -> 0 < d -> a * d < c * b -> a / b < c / d.
Proof.
  intros Hb Hd H. apply Qlt_shift_div_l; [exact Hd|].
  assert (E : a / b * d == a * d / b) by (field; lra).
  rewrite E. apply Qlt_shift_div_r; assumption.
Qed.

Lemma ilog2_spec (q : Q) : 0 < q ->
  2 ^ ilog2 q <= q /\ q < 2 ^ (ilog2 q + 1).
Proof.
  intros Hq. unfold ilog2.
  assert (Ha : (0 < Qnum q)%Z).
  { unfold Qlt in Hq. simpl in Hq. lia. }
  destruct (pow2_log2 (Qnum q) Ha) as [HPl HPu].
  destruct (pow2_log2 (Zpos (Qden q)) eq_refl) as [HRl HRu].
  pose proof (pow2_pos (Z.log2 (Qnum q))) as HP.
  pose proof (pow2_pos (Z.log2 (Zpos (Qden q)))) as HR.
  assert (HB : 0 < inject_Z (Zpos (Qden q))) by reflexivity.
  assert (Hqd : q == inject_Z (Qnum q) / inject_Z (Zpos (Qden q))).
  { destruct q as [a b]. apply Qmake_Qdiv. }
  set (A := inject_Z (Qnum q)) in *. set (B := inject_Z (Zpos (Qden q))) in *.
  set (la := Z.log2 (Qnum q)) in *. set (lb := Z.log2 (Zpos (Qden q))) in *.
  assert (Hk : 2 ^ (la - lb) == 2 ^ la / 2 ^ lb).
  { apply Qpower_minus. discriminate. }
  destruct (Qle_bool (2 ^ (la - lb)) q) eqn:Hc.
  - apply Qle_bool_iff in Hc. split; [exact Hc|].
    rewrite pow2_succ, Hk, Hqd.
    assert (E : 2 * (2 ^ la / 2 ^ lb) == (2 * 2 ^ la) / 2 ^ lb) by (field; lra).
    rewrite E. apply Qdiv_lt_cross; [exact HB | exact HR | nra].
  - assert (Hlt : q < 2 ^ (la - lb)).
    { apply Qnot_le_lt. intros H. apply Qle_bool_iff in H. congruence. }
    split.
    + replace (la - lb - 1)%Z with (la - (lb + 1))%Z by lia.
      rewrite Qpower_minus by discriminate. rewrite pow2_succ, Hqd.
      apply Qdiv_le_cross; [lra | exact HB | nra].
    + replace (la - lb - 1 + 1)%Z with (la - lb)%Z by lia. exact Hlt.
Qed.

Lemma ilog2_mono (x y : Q) : 0 < x -> x <= y -> (ilog2 x <= ilog2 y)%Z.
Proof.
  intros Hx Hxy.
  assert (Hy : 0 < y) by lra.
  destruct (ilog2_spec x Hx) as [Hxl _], (ilog2_spec y Hy) as [_ Hyu].
  destruct (Z_le_gt_dec (ilog2 x) (ilog2 y)) as [H | H]; [exact H | exfalso].
  pose proof (pow2_le (ilog2 y + 1) (ilog2 x) ltac:(lia)). lra.
Qed.

Lemma scaled_le (x y : Q) (e : Z) : x <= y -> x / 2 ^ e <= y / 2 ^ e.
Proof.
  intros H. unfold Qdiv. apply Qmult_le_compat_r; [exact H|].
  apply Qinv_le_0_compat, Qlt_le_weak, pow2_pos.
Qed.

Lemma inject_Z_pow2 (n : Z) : (0 <= n)%Z -> inject_Z (2 ^ n) == 2 ^ n.
Proof. intros H. rewrite Zpower_Qpower by exact H. reflexivity. Qed.

Lemma round_pos_nonneg (x : Q) : 0 <= x -> 0 <= round_pos x.
Proof.
  intros Hx. unfold round_pos.
  apply Qmult_le_0_compat; [|apply Qlt_le_weak, pow2_pos].
  change 0 with (inject_Z 0). rewrite <- Zle_Qle.
  rewrite <- (rne_inject_Z 0). apply rne_mono.
  apply Qle_shift_div_l; [apply pow2_pos|]. rewrite Qmult_0_l. exact Hx.
Qed.

Lemma pow2_plus (e n : Z) : (0 <= n)%Z -> 2 ^ (e + n) == inject_Z (2 ^ n) * 2 ^ e.
Proof.
  intros Hn. rewrite Qpower_plus by discriminate.
  rewrite inject_Z_pow2 by exact Hn. ring.
Qed.

Lemma round_pos_upper (x : Q) : 0 < x -> round_pos x <= 2 ^ (ulp_exp x + 53).
Proof.
  intros Hx. unfold round_pos.
  destruct (ilog2_spec x Hx) as [_ Hu].
  assert (He : (ilog2 x + 1 <= ulp_exp x + 53)%Z) by (unfold ulp_exp; lia).
  pose proof (pow2_le _ _ He) as Hp.
  rewrite (pow2_plus (ulp_exp x) 53) by lia.
  apply Qmult_le_compat_r; [|apply Qlt_le_weak, pow2_pos].
  rewrite <- Zle_Qle.
  rewrite <- (rne_inject_Z (2 ^ 53)). apply rne_mono.
  apply Qle_shift_div_r; [apply pow2_pos|].
  rewrite <- (pow2_plus (ulp_exp x) 53) by lia.
  apply Qlt_le_weak. eapply Qlt_le_trans; [exact Hu | exact Hp].
Qed.

Lemma round_pos_lower (x : Q) : 0 < x -> ulp_exp x = (ilog2 x - 52)%Z ->
  2 ^ (ulp_exp x + 52) <= round_pos x.
Proof.
  intros Hx He. unfold round_pos.
  destruct (ilog2_spec x Hx) as [Hl _].
  replace (ilog2 x) with (ulp_exp x + 52)%Z in Hl by lia.
  rewrite (pow2_plus (ulp_exp x) 52) by lia.
  apply Qmult_le_compat_r; [|apply Qlt_le_weak, pow2_pos].
  rewrite <- Zle_Qle.
  rewrite <- (rne_inject_Z (2 ^ 52)) at 1. apply rne_mono.
  apply Qle_shift_div_l; [apply pow2_pos|].
  rewrite <- (pow2_plus (ulp_exp x) 52) by lia. exact Hl.
Qed.

Lemma round_pos_mono (x y : Q) : 0 < x -> x <= y -> round_pos x <= round_pos y.
Proof.
  intros Hx Hxy.
  assert (Hy : 0 < y) by lra.
  pose proof (ilog2_mono x y Hx Hxy) as Hl.
  destruct (Z.eq_dec (ulp_exp x) (ulp_exp y)) as [Heq | Hne].
  - unfold round_pos. rewrite <- Heq.
    apply Qmult_le_compat_r; [|apply Qlt_le_weak, pow2_pos].
    rewrite <- Zle_Qle. apply rne_mono, scaled_le, Hxy.
  - assert (Hlt : (ulp_exp x + 53 <= ulp_exp y + 52)%Z) by (unfold ulp_exp in *; lia).
    assert (Hey : ulp_exp y = (ilog2 y - 52)%Z) by (unfold ulp_exp in *; lia).
    pose proof (round_pos_upper x Hx). pose proof (round_pos_lower y Hy Hey).
    pose proof (pow2_le _ _ Hlt). lra.
Qed.

Lemma Qnum_sign (x : Q) :
  match Qnum x with
  | Z0 => x == 0
  | Zpos _ => 0 < x
  | Zneg _ => x < 0
  end.
Proof.
  destruct x as [[|p|p] d]; unfold Qeq, Qlt; simpl; lia.
Qed.

(** Rounding is monotone on the non-negative rationals. *)
Lemma round_mono (x y : Q) : 0 <= x -> x <= y -> round x <= round y.
Proof.
  intros Hx Hxy. unfold round.
  pose proof (Qnum_sign x) as Sx. pose proof (Qnum_sign y) as Sy.
  destruct (Qnum x), (Qnum y); try lra.
  - apply round_pos_nonneg. lra.
  - apply round_pos_mono; assumption.
Qed.

Lemma round_nonneg (x : Q) : 0 <= x -> 0 <= round x.
Proof. intros Hx. apply (round_mono 0 x); [lra | exact Hx]. Qed.

Lemma round_0 : round 0 == 0.
Proof. reflexivity. Qed.

Lemma round_1 : round 1 == 1.
Proof. vm_compute. reflexivity. Qed.

Lemma of_int_100 : of_int 100 == 100.
Proof. vm_compute. reflexivity. Qed.

Lemma round_le_100 (x : Q) : 0 <= x -> x <= 100 -> round x <= 100.
Proof.
  intros H0 H. eapply Qle_trans; [apply (round_mono x 100); assumption|].
  change (round 100) with (of_int 100). rewrite of_int_100. apply Qle_refl.
Qed.

Lemma to_int_nonneg (x : Q) : 0 <= x -> to_int x = Qfloor x.
Proof.
  intros H. unfold to_int. apply Qle_bool_iff in H. now rewrite H.
Qed.

End Float64Facts.

(** ** Percentages *)

Lemma percent_returns (i total : nat) : percent i total = Return (percent_value i total).
Proof.
  unfold percent, int_truediv.
  destruct (Z.eqb_spec (Z.max (Z.of_nat total) 1) 0) as [H | _]; [lia | reflexivity].
Qed.

Lemma ratio_bounds (i j total : nat) : (i <= j)%nat ->
  (0 <= inject_Z (Z.of_nat i) / inject_Z (Z.max (Z.of_nat total) 1) /\
   inject_Z (Z.of_nat i) / inject_Z (Z.max (Z.of_nat total) 1)
   <= inject_Z (Z.of_nat j) / inject_Z (Z.max (Z.of_nat total) 1))%Q.
Proof.
  intros Hij.
  assert (Hm : (0 < inject_Z (Z.max (Z.of_nat total) 1))%Q).
  { change 0%Q with (inject_Z 0). rewrite <- Zlt_Qlt. lia. }
  assert (Hi : (0 <= inject_Z (Z.of_nat i))%Q).
  { change 0%Q with (inject_Z 0). rewrite <- Zle_Qle. lia. }
  assert (Hle : (inject_Z (Z.of_nat i) <= inject_Z (Z.of_nat j))%Q).
  { rewrite <- Zle_Qle. lia. }
  split.
  - apply Qle_shift_div_l; [exact Hm|]. rewrite Qmult_0_l. exact Hi.
  - unfold Qdiv. apply Qmult_le_compat_r; [exact Hle|].
    apply Qinv_le_0_compat, Qlt_le_weak, Hm.
Qed.

Lemma scaled_by_100 (x y : Q) : (0 <= x)%Q -> (x <= y)%Q ->
  (0 <= x * Float64.of_int 100 /\ x * Float64.of_int 100 <= y * Float64.of_int 100)%Q.
Proof.
  intros H0 H. pose proof Float64Facts.of_int_100 as E.
  split.
  - apply Qmult_le_0_compat; [exact H0|]. rewrite E. discriminate.
  - apply Qmult_le_compat_r; [exact H|]. rewrite E. discriminate.
Qed.

Lemma percent_value_mono (i j total : nat) : (i <= j)%nat ->
  (percent_value i total <= percent_value j total)%Z.
Proof.
  intros Hij. unfold percent_value, Float64.mul.
  destruct (ratio_bounds i j total Hij) as [H0 Hle].
  pose proof (Float64Facts.round_nonneg _ H0) as Hr0.
  pose proof (Float64Facts.round_mono _ _ H0 Hle) as Hr.
  destruct (scaled_by_100 _ _ Hr0 Hr) as [Hs0 Hs].
  pose proof (Float64Facts.round_nonneg _ Hs0) as Ht0.
  pose proof (Float64Facts.round_mono _ _ Hs0 Hs) as Ht.
  rewrite !Float64Facts.to_int_nonneg; [apply Qfloor_resp_le, Ht | | exact Ht0].
  eapply Qle_trans; [exact Ht0 | exact Ht].
Qed.

Lemma percent_value_range (i total : nat) : (i <= Nat.max total 1)%nat ->
  (0 <= percent_value i total <= 100)%Z.
Proof.
  intros Hi. unfold percent_value, Float64.mul.
  destruct (ratio_bounds i i total (le_n i)) as [H0 _].
  assert (H1 : (inject_Z (Z.of_nat i) / inject_Z (Z.max (Z.of_nat total) 1) <= 1)%Q).
  { apply Qle_shift_div_r.
    - change 0%Q with (inject_Z 0). rewrite <- Zlt_Qlt. lia.
    - rewrite Qmult_1_l. rewrite <- Zle_Qle. lia. }
  pose proof (Float64Facts.round_nonneg _ H0) as Hr0.
  pose proof (Float64Facts.round_mono _ _ H0 H1) as Hr.
  rewrite Float64Facts.round_1 in Hr.
  destruct (scaled_by_100 _ _ Hr0 Hr) as [Hs0 Hs].
  rewrite Float64Facts.of_int_100 in Hs at 2. rewrite Qmult_1_l in Hs.
  pose proof (Float64Facts.round_nonneg _ Hs0) as Ht0.
  pose proof (Float64Facts.round_le_100 _ Hs0 Hs) as Ht.
  rewrite Float64Facts.to_int_nonneg by exact Ht0.
  split.
  - rewrite <- (Qfloor_Z 0). apply Qfloor_resp_le, Ht0.
  - rewrite <- (Qfloor_Z 100). apply Qfloor_resp_le, Ht.
Qed.

(** ** Script detection *)

Lemma isascii_false_iff (label : str) :
  isascii label = false <-> exists c, c ∈ label /\ 128 <= c.
Proof.
  induction label as [| c label IH]; simpl.
  - split; [discriminate | intros (c & Hc & _); inversion Hc].
  - rewrite andb_false_iff, IH, N.ltb_ge. split.
    + intros [Hc | (c' & Hin & Hc')].
      * exists c. split; [left | exact Hc].
      * exists c'. split; [right; exact Hin | exact Hc'].
    + intros (c' & Hin & Hc'). apply elem_of_cons in Hin as [-> | Hin].
      * left. exact Hc'.
      * right. exists c'. split; assumption.
Qed.

Lemma ascii_fold_letter (c lo : char) : 97 <= lo <= 122 ->
  ascii_fold c = lo <-> c = lo \/ c = lo - 32.
Proof.
  intros Hlo. unfold ascii_fold.
  destruct (N.leb_spec 65 c), (N.leb_spec c 90); simpl; lia.
Qed.

Lemma ascii_fold_hyphen (c : char) : ascii_fold c = 45 <-> c = 45.
Proof.
  unfold ascii_fold.
  destruct (N.leb_spec 65 c), (N.leb_spec c 90); simpl; lia.
Qed.

Lemma PUNY_match_iff (label : str) :
  PUNY_match label = true <-> has_prefix_nocase (lit "xn--") label.
Proof.
  unfold has_prefix_nocase. split.
  - destruct label as [| c1 [| c2 [| c3 [| c4 rest]]]]; simpl; try discriminate.
    unfold ieq. rewrite !andb_true_iff, !orb_true_iff, !N.eqb_eq.
    intros [[[H1 H2] H3] H4].
    exists [c1; c2; c3; c4], rest. split; [reflexivity|].
    change (lit "xn--") with [120; 110; 45; 45]. simpl.
    rewrite (proj2 (ascii_fold_letter c1 120 ltac:(lia))) by (simpl; lia).
    rewrite (proj2 (ascii_fold_letter c2 110 ltac:(lia))) by (simpl; lia).
    rewrite (proj2 (ascii_fold_hyphen c3) H3), (proj2 (ascii_fold_hyphen c4) H4).
    reflexivity.
  - intros (q & rest & -> & Hq).
    change (lit "xn--") with [120; 110; 45; 45] in Hq.
    destruct q as [| c1 [| c2 [| c3 [| c4 [| c5 q]]]]]; simpl in Hq; try discriminate.
    injection Hq as H1 H2 H3 H4.
    apply (proj1 (ascii_fold_letter _ 120 ltac:(lia))) in H1.
    apply (proj1 (ascii_fold_letter _ 110 ltac:(lia))) in H2.
    apply (proj1 (ascii_fold_hyphen _)) in H3. apply (proj1 (ascii_fold_hyphen _)) in H4.
    subst c3 c4.
    simpl. unfold ieq. rewrite !andb_true_iff, !orb_true_iff, !N.eqb_eq.
    simpl in H1, H2. repeat split; tauto.
Qed.

(** C2, as amended: [is_idn label] is true exactly when the label
    contains a character outside ASCII (a code point of 128 or more),
    or begins with "xn--" up to the case of the two letters; it is
    false for every other label.  ASCII control characters, which are
    not printable, do not make a label internationalized. *)
Theorem is_idn_spec (label : str) :
  is_idn label = true <->
  (exists c, c ∈ label /\ 128 <= c) \/ has_prefix_nocase (lit "xn--") label.
Proof.
  unfold is_idn.
  rewrite orb_true_iff, negb_true_iff, isascii_false_iff, PUNY_match_iff.
  reflexivity.
Qed.

(** C2 as stated fails on the label a, TAB, b: the tab is outside
    printable ASCII, yet [is_idn] answers false. *)
Lemma is_idn_control_char :
  ~ (is_idn [97; 9; 98] = true <->
     (exists c, c ∈ [97; 9; 98] /\ printable_ascii c = false) \/
     has_prefix_nocase (lit "xn--") [97; 9; 98]).
Proof.
  intros [_ Hclaim].
  assert (Hidn : is_idn [97; 9; 98] = true).
  { apply Hclaim. left. exists 9. split; [set_solver | reflexivity]. }
  discriminate Hidn.
Qed.

(** ** Bucket tables *)

Lemma GENERIC_SLD_lookup (sfx b : str) :
  GENERIC_SLD !! sfx = Some b <->
  (sfx = lit "com.cn" /\ b = lit ".COM.CN") \/
  (sfx = lit "net.cn" /\ b = lit ".NET.CN") \/
  (sfx = lit "org.cn" /\ b = lit ".ORG.CN").
Proof.
  unfold GENERIC_SLD.
  rewrite !lookup_insert_Some, lookup_empty. split.
  - intros [[<- <-] | [_ [[<- <-] | [_ [[<- <-] | [_ ?]]]]]]; try discriminate; tauto.
  - intros [[-> ->] | [[-> ->] | [-> ->]]].
    + left. done.
    + right. split; [done|]. left. done.
    + right. split; [done|]. right. split; [done|]. left. done.
Qed.

Lemma ALL_BUCKETS_NoDup : NoDup ALL_BUCKETS.
Proof. apply (bool_decide_unpack _). vm_compute. exact I. Qed.

Lemma TOTAL_not_bucket : lit "TOTAL" ∉ ALL_BUCKETS.
Proof. apply (bool_decide_unpack _). vm_compute. exact I. Qed.

Lemma slice_ALL_BUCKETS (b : str) : b ∈ ALL_BUCKETS -> slice_to 31 b = b.
Proof.
  intros Hb. unfold ALL_BUCKETS, BUCKETS in Hb. simpl in Hb.
  repeat (apply elem_of_cons in Hb as [-> | Hb]; [reflexivity|]).
  inversion Hb.
Qed.

Ltac in_buckets := apply (bool_decide_unpack _); vm_compute; exact I.

(** ** The classifier *)

Section ClassifierFacts.

Context `{DomainLib}.

Lemma rule1_iff (sfx : str) : rule1 sfx = true <-> exists b, GENERIC_SLD !! sfx = Some b.
Proof. unfold rule1. rewrite bool_decide_eq_true. reflexivity. Qed.

Lemma rule1_false (sfx : str) : rule1 sfx = false <-> GENERIC_SLD !! sfx = None.
Proof.
  unfold rule1. rewrite bool_decide_eq_false, <- eq_None_not_Some. reflexivity.
Qed.

(** What the guarded [try] block of step 4 amounts to. *)
Lemma step4_guarded (d : str) :
  except_IDNAError (step4 d) (Return None) =
  Return (if rule4 d then Some (lit "IDN.IDN") else None).
Proof.
  unfold step4, rule4, idna_encode_decode.
  destruct (idna_encode d) as [ace | msg]; simpl; [|reflexivity].
  destruct (rule2 _ && is_idn _); reflexivity.
Qed.

(** [classify] as a decision list over the four rule tests. *)
Lemma classify_cases (d : str) :
  classify d =
  Return (match GENERIC_SLD !! suffix (extract (lower d)) with
          | Some b => b
          | None =>
              if rule2 (suffix (extract (lower d))) then
                if is_idn (domain (extract (lower d)))
                then lit "IDN.XN--FIQS8S" else lit "ASCII.XN--FIQS8S"
              else if rule3 (suffix (extract (lower d))) then
                if is_idn (domain (extract (lower d)))
                then lit "IDN.CN" else lit "ASCII.CN"
              else if rule4 d then lit "IDN.IDN" else lit "UNCLASSIFIED"
          end).
Proof.
  unfold classify.
  destruct (GENERIC_SLD !! suffix (extract (lower d))); [reflexivity|].
  destruct (rule2 (suffix (extract (lower d)))); [reflexivity|].
  destruct (rule3 (suffix (extract (lower d)))); [reflexivity|].
  rewrite step4_guarded. destruct (rule4 d); reflexivity.
Qed.

Lemma classify_bucket_of (d : str) : classify d = Return (bucket_of d).
Proof. unfold bucket_of. rewrite classify_cases. reflexivity. Qed.

Lemma bucket_of_in (d : str) : bucket_of d ∈ ALL_BUCKETS.
Proof.
  unfold bucket_of. rewrite classify_cases.
  set (ext := extract (lower d)).
  destruct (GENERIC_SLD !! suffix ext) as [b|] eqn:Hg.
  - apply GENERIC_SLD_lookup in Hg as [[_ ->] | [[_ ->] | [_ ->]]]; in_buckets.
  - destruct (rule2 (suffix ext)), (rule3 (suffix ext)), (is_idn (domain ext)), (rule4 d);
      in_buckets.
Qed.

Lemma bucket_of_unclassified (d : str) :
  bucket_of d = lit "UNCLASSIFIED" <-> no_rule_matches d = true.
Proof.
  unfold bucket_of, no_rule_matches. rewrite classify_cases.
  set (ext := extract (lower d)).
  destruct (GENERIC_SLD !! suffix ext) as [b|] eqn:Hg.
  - assert (H1 : rule1 (suffix ext) = true) by (apply rule1_iff; eauto).
    rewrite H1. simpl.
    apply GENERIC_SLD_lookup in Hg as [[_ ->] | [[_ ->] | [_ ->]]]; split; discriminate.
  - apply rule1_false in Hg. rewrite Hg.
    destruct (rule2 (suffix ext)), (rule3 (suffix ext)), (is_idn (domain ext)), (rule4 d);
      simpl; split; (discriminate || reflexivity).
Qed.

(** C1: for every input string, [classify] returns (it does not
    raise), what it returns is one label of [ALL_BUCKETS], no second
    label is returned, and the label is "UNCLASSIFIED" exactly when
    none of the four rules matches. *)
Theorem classify_one_bucket (d : str) :
  exists b, classify d = Return b /\ b ∈ ALL_BUCKETS /\
    (forall b', classify d = Return b' -> b' = b) /\
    (b = lit "UNCLASSIFIED" <-> no_rule_matches d = true).
Proof.
  exists (bucket_of d). rewrite classify_bucket_of.
  split; [reflexivity|]. split; [apply bucket_of_in|].
  split; [intros b' [=]; done | apply bucket_of_unclassified].
Qed.

Lemma generic_suffix_ends_with_cn (sfx b : str) :
  GENERIC_SLD !! sfx = Some b -> rule3 sfx = true.
Proof.
  intros Hg. apply GENERIC_SLD_lookup in Hg as [[-> _] | [[-> _] | [-> _]]]; reflexivity.
Qed.

(** C4: when the suffix extracted from the lower-cased domain passes
    both the generic-zone test and the country-code test, [classify]
    returns the bucket [GENERIC_SLD] maps the suffix to, which is
    neither country-code bucket; for the suffix "com.cn" it is
    ".COM.CN". *)
Theorem generic_rule_has_priority (d : str) :
  rule1 (suffix (extract (lower d))) = true ->
  rule3 (suffix (extract (lower d))) = true ->
  exists b, GENERIC_SLD !! suffix (extract (lower d)) = Some b /\
    classify d = Return b /\
    b <> lit "ASCII.CN" /\ b <> lit "IDN.CN" /\
    (suffix (extract (lower d)) = lit "com.cn" -> b = lit ".COM.CN").
Proof.
  intros H1 _. apply rule1_iff in H1 as [b Hb]. exists b.
  split; [exact Hb|]. split.
  - rewrite classify_cases, Hb. reflexivity.
  - apply GENERIC_SLD_lookup in Hb as [[-> ->] | [[-> ->] | [-> ->]]];
      repeat split; (discriminate || reflexivity).
Qed.

(** C5: when rules 1 to 3 do not fire and [idna.encode] fails, the
    [try] block raises [IDNAError], the handler swallows it, and
    [classify] returns "UNCLASSIFIED" instead of raising. *)
Theorem encoding_failure_is_unclassified (d msg : str) :
  rule1 (suffix (extract (lower d))) = false ->
  rule2 (suffix (extract (lower d))) = false ->
  rule3 (suffix (extract (lower d))) = false ->
  idna_encode d = IDNAFailure msg ->
  step4 d = Raise (IDNAError msg) /\
  classify d = Return (lit "UNCLASSIFIED").
Proof.
  intros H1 H2 H3 Henc. split.
  - unfold step4, idna_encode_decode. rewrite Henc. reflexivity.
  - apply rule1_false in H1.
    rewrite classify_cases, H1, H2, H3. unfold rule4. rewrite Henc. reflexivity.
Qed.

(** When one of the first three rules fires, the case of the input
    does not matter. *)
Lemma classify_lower_rules123 (d : str) :
  lower (lower d) = lower d ->
  rule1 (suffix (extract (lower d))) || rule2 (suffix (extract (lower d)))
    || rule3 (suffix (extract (lower d))) = true ->
  classify d = classify (lower d).
Proof.
  intros Hidem Hr. rewrite !classify_cases, Hidem.
  destruct (GENERIC_SLD !! suffix (extract (lower d))) eqn:Hg; [reflexivity|].
  apply rule1_false in Hg. rewrite Hg in Hr. simpl in Hr.
  destruct (rule2 (suffix (extract (lower d)))); [reflexivity|].
  simpl in Hr. rewrite Hr. reflexivity.
Qed.

End ClassifierFacts.

(** The scenarios of the specification, on the reference libraries. *)

Example classify_example_com_cn :
  Ref.classify (lit "example.com.cn") = Return (lit ".COM.CN").
Proof. vm_compute. reflexivity. Qed.

Example classify_upper_example_com_cn :
  Ref.classify (lit "EXAMPLE.COM.CN") = Ref.classify (lit "example.com.cn").
Proof. vm_compute. reflexivity. Qed.

Example classify_native_script :
  Ref.classify ([20363; 23376; 46] ++ Ref.zhongguo_s) = Return (lit "IDN.IDN").
Proof. vm_compute. reflexivity. Qed.

Example classify_puny_label_puny_tld :
  Ref.classify (lit "xn--fsqu00a.xn--fiqs8s") = Return (lit "IDN.XN--FIQS8S").
Proof. vm_compute. reflexivity. Qed.

Example classify_province :
  Ref.classify (lit "example.xj.cn") = Return (lit "ASCII.CN").
Proof. vm_compute. reflexivity. Qed.

Example classify_notadomain :
  Ref.classify (lit "notadomain") = Return (lit "UNCLASSIFIED").
Proof. vm_compute. reflexivity. Qed.

Lemma classify_one_bucket_witness :
  exists b, Ref.classify (lit "notadomain") = Return b /\ b ∈ ALL_BUCKETS /\
    (forall b', Ref.classify (lit "notadomain") = Return b' -> b' = b) /\
    (b = lit "UNCLASSIFIED" <-> @no_rule_matches Ref.domain_lib (lit "notadomain") = true).
Proof. exact (@classify_one_bucket Ref.domain_lib (lit "notadomain")). Defined.

(** C3: step 4 re-encodes the domain as typed, not its lower-cased
    form.  "Königsgäßchen" under the Chinese-script suffix is
    unclassified, because IDNA 2008 encoding rejects the capital K,
    while its lower-cased form lands in "IDN.IDN". *)
Theorem classify_case_sensitive_step4 :
  Ref.latin1_lower Ref.konigsgasschen_cn <> Ref.konigsgasschen_cn /\
  Ref.classify Ref.konigsgasschen_cn = Return (lit "UNCLASSIFIED") /\
  Ref.classify (Ref.latin1_lower Ref.konigsgasschen_cn) = Return (lit "IDN.IDN").
Proof. vm_compute. repeat split; discriminate || reflexivity. Qed.

Lemma generic_rule_has_priority_witness :
  rule1 (suffix (Ref.psl_extract (Ref.latin1_lower (lit "example.com.cn")))) = true /\
  rule3 (suffix (Ref.psl_extract (Ref.latin1_lower (lit "example.com.cn")))) = true /\
  exists b, GENERIC_SLD !! lit "com.cn" = Some b /\
    Ref.classify (lit "example.com.cn") = Return b /\
    b <> lit "ASCII.CN" /\ b <> lit "IDN.CN" /\
    (lit "com.cn" = lit "com.cn" -> b = lit ".COM.CN").
Proof.
  split; [reflexivity|]. split; [reflexivity|].
  apply (@generic_rule_has_priority Ref.domain_lib (lit "example.com.cn")); reflexivity.
Defined.

Lemma encoding_failure_is_unclassified_witness :
  Ref.idna_table_encode Ref.konigsgasschen_cn = IDNAFailure (lit "Codepoint not allowed") /\
  @step4 Ref.domain_lib Ref.konigsgasschen_cn =
    Raise (IDNAError (lit "Codepoint not allowed")) /\
  Ref.classify Ref.konigsgasschen_cn = Return (lit "UNCLASSIFIED").
Proof.
  split; [reflexivity|].
  apply (@encoding_failure_is_unclassified Ref.domain_lib); reflexivity.
Defined.

(** ** Data frames *)

Lemma df_col_at_set (df : DataFrame) (i : nat) (c v : str) :
  df_col (df_at_set df i c v) c = <[i := v]> (df_col df c).
Proof.
  unfold df_col, df_at_set. simpl.
  generalize dependent i. induction (rows df) as [| r rs IH]; intros i; [reflexivity|].
  destruct i as [| i]; simpl.
  - rewrite lookup_insert_eq. reflexivity.
  - f_equal. apply IH.
Qed.

Lemma df_len_at_set (df : DataFrame) (i : nat) (c v : str) :
  df_len (df_at_set df i c v) = df_len df.
Proof. unfold df_len, df_at_set. simpl. apply length_alter. Qed.

Lemma df_len_col (df : DataFrame) (c : str) : length (df_col df c) = df_len df.
Proof. unfold df_col, df_len. apply length_fmap. Qed.

Lemma df_len_set_col (df : DataFrame) (c v : str) :
  df_len (df_set_col df c v) = df_len df.
Proof. unfold df_len, df_set_col. simpl. apply length_fmap. Qed.

Lemma labelled_len (bs : list str) (i : nat) (df : DataFrame) :
  df_len (labelled i bs df) = df_len df.
Proof.
  revert i df. induction bs as [| b bs IH]; intros i df; simpl; [reflexivity|].
  rewrite IH. apply df_len_at_set.
Qed.

(** Labelling the rows from [i] to the end overwrites exactly that part
    of the bucket column. *)
Lemma labelled_col (bs : list str) (i : nat) (df : DataFrame) :
  (i + length bs = df_len df)%nat ->
  df_col (labelled i bs df) (lit "bucket") = take i (df_col df (lit "bucket")) ++ bs.
Proof.
  revert i df. induction bs as [| b bs IH]; intros i df Hlen; simpl in *.
  - rewrite app_nil_r, take_ge; [reflexivity|]. rewrite df_len_col. lia.
  - rewrite IH by (rewrite df_len_at_set; lia).
    rewrite df_col_at_set.
    rewrite take_S_r with (x := b).
    + rewrite take_insert_ge by lia. rewrite <- app_assoc. reflexivity.
    + apply list_lookup_insert_eq. rewrite df_len_col. lia.
Qed.

(** ** Checkpoints *)

Lemma checkpoints_elem (total i n : nat) (p : Z) :
  p ∈ checkpoints total i n ->
  exists j, (i <= j < i + n)%nat /\ p = percent_value j total.
Proof.
  unfold checkpoints. intros Hp.
  apply list_elem_of_fmap in Hp as (j & -> & Hj).
  apply list_elem_of_filter in Hj as [_ Hj].
  apply elem_of_seq in Hj. exists j. split; [lia | reflexivity].
Qed.

Lemma checkpoints_sorted (total i n : nat) : StronglySorted Z.le (checkpoints total i n).
Proof.
  revert i. induction n as [| n IH]; intros i.
  - constructor.
  - unfold checkpoints. cbn [seq]. rewrite filter_cons.
    destruct (decide (i mod 50 = 0)%nat); [|apply IH].
    cbn [fmap list_fmap]. constructor; [apply IH|].
    apply Forall_forall. intros p Hp.
    apply checkpoints_elem in Hp as (j & Hj & ->).
    apply percent_value_mono. lia.
Qed.

Lemma checkpoints_range (total : nat) :
  Forall (fun p => (0 <= p <= 100)%Z) (checkpoints total 0 total).
Proof.
  apply Forall_forall. intros p Hp.
  apply checkpoints_elem in Hp as (j & Hj & ->).
  apply percent_value_range. lia.
Qed.

Lemma checkpoints_range_upto (total n : nat) : (n <= total)%nat ->
  Forall (fun p => (0 <= p <= 100)%Z) (checkpoints total 0 n).
Proof.
  intros Hn. apply Forall_forall. intros p Hp.
  apply checkpoints_elem in Hp as (j & Hj & ->).
  apply percent_value_range. lia.
Qed.

Lemma progress_of_app (l k : list event) :
  progress_of (l ++ k) = progress_of l ++ progress_of k.
Proof. apply omap_app. Qed.

Lemma progress_of_Progress (ps : list Z) : progress_of (Progress <$> ps) = ps.
Proof.
  induction ps as [| p ps IH]; [reflexivity|].
  cbn. unfold progress_of in IH. rewrite IH. reflexivity.
Qed.

Lemma filter_finished_Progress (ps : list Z) :
  List.filter is_finished (Progress <$> ps) = [].
Proof. induction ps as [| p ps IH]; [reflexivity | exact IH]. Qed.

Lemma loop_events_progress (df : DataFrame) :
  progress_of (loop_events df) = checkpoints (df_len df) 0 (df_len df) ++ [100%Z].
Proof.
  unfold loop_events. rewrite progress_of_app, progress_of_Progress. reflexivity.
Qed.

Lemma loop_events_finished (df : DataFrame) :
  List.filter is_finished (loop_events df) = [].
Proof.
  unfold loop_events. rewrite List.filter_app, filter_finished_Progress. reflexivity.
Qed.

Lemma loop_progress_sorted (df : DataFrame) :
  StronglySorted Z.le (checkpoints (df_len df) 0 (df_len df) ++ [100%Z]).
Proof.
  apply StronglySorted_app_2.
  - intros p q Hp Hq. apply list_elem_of_singleton in Hq as ->.
    pose proof (checkpoints_range (df_len df)) as Hrange.
    rewrite Forall_forall in Hrange. apply Hrange in Hp. lia.
  - apply checkpoints_sorted.
  - repeat constructor.
Qed.

Lemma loop_progress_range (df : DataFrame) :
  Forall (fun p => (0 <= p <= 100)%Z) (checkpoints (df_len df) 0 (df_len df) ++ [100%Z]).
Proof.
  apply Forall_app. split; [apply checkpoints_range|].
  constructor; [lia | constructor].
Qed.

(** ** Counting *)

Lemma value_counts_cons (v : str) (col : list str) (k : str) :
  default 0%nat (value_counts (v :: col) !! k) =
  ((if decide (k = v) then 1 else 0) + default 0%nat (value_counts col !! k))%nat.
Proof.
  cbn [value_counts foldr]. fold (value_counts col).
  destruct (decide (k = v)) as [-> | Hne].
  - rewrite lookup_insert_eq. reflexivity.
  - rewrite lookup_insert_ne by congruence. reflexivity.
Qed.

Lemma value_counts_keys (col : list str) (k : str) :
  is_Some (value_counts col !! k) -> k ∈ col.
Proof.
  induction col as [| v col IH]; cbn [value_counts foldr].
  - rewrite lookup_empty. intros [? [=]].
  - fold (value_counts col). destruct (decide (k = v)) as [-> | Hne]; [left|].
    rewrite lookup_insert_ne by congruence. intros Hk. right. auto.
Qed.

Lemma sum_indicator (keys : list str) (v : str) :
  NoDup keys -> v ∈ keys ->
  sum_list_with (fun k => if decide (k = v) then 1 else 0)%nat keys = 1%nat.
Proof.
  induction 1 as [| k keys Hk Hnd IH]; intros Hv; [inversion Hv|].
  cbn [sum_list_with]. apply elem_of_cons in Hv as [-> | Hv].
  - rewrite decide_True by reflexivity.
    assert (E : sum_list_with (fun k0 => if decide (k0 = k) then 1 else 0)%nat keys = 0%nat).
    { clear IH Hnd. induction keys as [| k' keys IH']; [reflexivity|].
      cbn [sum_list_with]. rewrite decide_False by (intros ->; apply Hk; left).
      apply IH'. intros Hin. apply Hk. right. exact Hin. }
    rewrite E. reflexivity.
  - rewrite decide_False by (intros ->; contradiction). rewrite IH by exact Hv. reflexivity.
Qed.

Lemma value_counts_cons_sum (keys : list str) (v : str) (col : list str) :
  sum_list_with (fun k => default 0%nat (value_counts (v :: col) !! k)) keys =
  (sum_list_with (fun k => if decide (k = v) then 1 else 0)%nat keys +
   sum_list_with (fun k => default 0%nat (value_counts col !! k)) keys)%nat.
Proof.
  induction keys as [| k keys IH]; [reflexivity|].
  cbn [sum_list_with]. rewrite IH, value_counts_cons. lia.
Qed.

(** Every value is counted once, under its own key. *)
Lemma value_counts_total (keys col : list str) :
  NoDup keys -> Forall (fun v => v ∈ keys) col ->
  sum_list_with (fun k => default 0%nat (value_counts col !! k)) keys = length col.
Proof.
  intros Hnd Hcol. induction Hcol as [| v col Hv Hcol IH].
  - cbn [value_counts foldr]. induction keys as [| k keys IHk]; [reflexivity|].
    cbn [sum_list_with]. rewrite lookup_empty. simpl. apply IHk.
    apply NoDup_cons in Hnd. tauto.
  - rewrite value_counts_cons_sum, IH, sum_indicator by assumption. reflexivity.
Qed.

Lemma sum_list_with_agree {A} (f g : A -> nat) (l : list A) :
  (forall x, x ∈ l -> f x = g x) -> sum_list_with f l = sum_list_with g l.
Proof.
  induction l as [| x l IH]; intros Hfg; [reflexivity|].
  cbn [sum_list_with]. rewrite Hfg by apply list_elem_of_here.
  rewrite IH; [reflexivity|]. intros y Hy. apply Hfg. right. exact Hy.
Qed.

(** ** The report writer *)

Lemma write_sheets_app (df : DataFrame) (buckets : list str) (book : list Sheet) :
  write_sheets df buckets book =
  book ++ (sheet_for df <$> filter (fun b => has_rows df b = true) buckets).
Proof.
  revert book. induction buckets as [| b buckets IH]; intros book.
  - simpl. rewrite app_nil_r. reflexivity.
  - cbn [write_sheets]. rewrite IH, filter_cons. fold (has_rows df b).
    destruct (has_rows df b) eqn:Hb.
    + rewrite decide_True by reflexivity. cbn [fmap list_fmap].
      rewrite <- app_assoc. reflexivity.
    + rewrite decide_False by discriminate. reflexivity.
Qed.

Lemma select_sheet (df : DataFrame) (l : list str) (b : str) :
  NoDup l -> (forall x, x ∈ l -> slice_to 31 x = x) -> slice_to 31 b = b ->
  filter (fun s => sheet_name s = slice_to 31 b)
    (sheet_for df <$> filter (fun x => has_rows df x = true) l) =
  if decide (b ∈ l) then (if has_rows df b then [sheet_for df b] else []) else [].
Proof.
  intros Hnd Hl Hb. rewrite Hb.
  induction Hnd as [| x l Hx Hnd IH]; [reflexivity|].
  assert (Hxs : slice_to 31 x = x) by (apply Hl, list_elem_of_here).
  specialize (IH (fun y Hy => Hl y (list_elem_of_further _ _ _ Hy))).
  assert (Hhead : forall k, filter (fun s => sheet_name s = b) (sheet_for df x :: k) =
            if decide (x = b) then sheet_for df x :: filter (fun s => sheet_name s = b) k
            else filter (fun s => sheet_name s = b) k).
  { intros k. rewrite filter_cons. cbn [sheet_for sheet_name]. rewrite Hxs.
    destruct (decide (x = b)); reflexivity. }
  assert (Hin : b ∈ x :: l <-> x = b \/ b ∈ l).
  { rewrite elem_of_cons. split; intros [E | E]; auto. }
  rewrite filter_cons.
  destruct (decide (has_rows df x = true)) as [Hr | Hr].
  - cbn [fmap list_fmap]. rewrite Hhead, IH.
    destruct (decide (x = b)) as [-> | Hne].
    + rewrite (decide_True (P := b ∈ b :: l)) by (apply Hin; auto).
      rewrite (decide_False (P := b ∈ l)) by exact Hx. rewrite Hr. reflexivity.
    + destruct (decide (b ∈ l)) as [Hbl | Hbl].
      * rewrite (decide_True (P := b ∈ x :: l)) by (apply Hin; auto). reflexivity.
      * rewrite (decide_False (P := b ∈ x :: l)) by (rewrite Hin; tauto). reflexivity.
  - rewrite IH. apply not_true_is_false in Hr.
    destruct (decide (x = b)) as [-> | Hne].
    + rewrite (decide_True (P := b ∈ b :: l)) by (apply Hin; auto).
      rewrite (decide_False (P := b ∈ l)) by exact Hx. rewrite Hr. reflexivity.
    + destruct (decide (b ∈ l)) as [Hbl | Hbl].
      * rewrite (decide_True (P := b ∈ x :: l)) by (apply Hin; auto). reflexivity.
      * rewrite (decide_False (P := b ∈ x :: l)) by (rewrite Hin; tauto). reflexivity.
Qed.

(** C9: the writer holds one sheet per bucket of [ALL_BUCKETS] that
    has rows, in the order of [ALL_BUCKETS], and hands that book to the
    Excel writer; for a bucket with rows exactly one sheet carries its
    name cut to 31 characters, and its rows are the rows of the frame
    with that bucket, in their original order; a bucket without rows
    has no sheet; and there is no other sheet. *)
Theorem multi_sheet_write_sheets `{TableIO} (df : DataFrame) (dest : Path) :
  let book := write_sheets df ALL_BUCKETS [] in
  book = sheet_for df <$> filter (fun b => has_rows df b = true) ALL_BUCKETS /\
  (forall tr, excel_save dest book = Return tt ->
     multi_sheet_write df dest tr = (Return tt, tr ++ [Saved dest book])) /\
  (forall b, b ∈ ALL_BUCKETS -> has_rows df b = true ->
     exists s, filter (fun s => sheet_name s = slice_to 31 b) book = [s] /\
       rows (sheet_data s) =
       filter (fun r : gmap str str => default (lit "nan") (r !! lit "bucket") = b) (rows df) /\
       rows (sheet_data s) <> [] /\
       sublist (rows (sheet_data s)) (rows df)) /\
  (forall b, b ∈ ALL_BUCKETS -> has_rows df b = false ->
     filter (fun s => sheet_name s = slice_to 31 b) book = []) /\
  (forall s, s ∈ book -> exists b, b ∈ ALL_BUCKETS /\ has_rows df b = true /\ s = sheet_for df b).
Proof.
  intros book.
  assert (Hbook : book = sheet_for df <$> filter (fun b => has_rows df b = true) ALL_BUCKETS).
  { unfold book. rewrite write_sheets_app. reflexivity. }
  assert (Hsel : forall b, b ∈ ALL_BUCKETS ->
            filter (fun s => sheet_name s = slice_to 31 b) book =
            if has_rows df b then [sheet_for df b] else []).
  { intros b Hb. rewrite Hbook, select_sheet.
    - rewrite decide_True by exact Hb. reflexivity.
    - apply ALL_BUCKETS_NoDup.
    - apply slice_ALL_BUCKETS.
    - apply slice_ALL_BUCKETS, Hb. }
  split; [exact Hbook|]. split; [|split; [|split]].
  - intros tr Hsave. unfold multi_sheet_write, bind, lift, emit. fold book.
    rewrite Hsave. reflexivity.
  - intros b Hb Hr. exists (sheet_for df b). rewrite (Hsel b Hb), Hr.
    split; [reflexivity|]. split; [reflexivity|]. split.
    + unfold has_rows, df_empty in Hr. cbn [sheet_for sheet_data].
      destruct (rows (df_where df (lit "bucket") b)); [discriminate Hr | discriminate].
    + apply sublist_filter.
  - intros b Hb Hr. rewrite (Hsel b Hb), Hr. reflexivity.
  - intros s Hs. rewrite Hbook in Hs.
    apply list_elem_of_fmap in Hs as (b & -> & Hb).
    apply list_elem_of_filter in Hb as [Hr Hb]. exists b. auto.
Qed.

(** ** The worker *)

Section RunFacts.

Context `{DomainLib} `{TableIO}.

Lemma classified_len (df : DataFrame) : df_len (classified df) = df_len df.
Proof. unfold classified. rewrite labelled_len. apply df_len_set_col. Qed.

Lemma classified_col (df : DataFrame) :
  df_col (classified df) (lit "bucket") =
  (fun v => bucket_of (strip v)) <$> df_col (df_set_col df (lit "bucket") []) COLUMN.
Proof.
  unfold classified. rewrite labelled_col.
  - reflexivity.
  - simpl. rewrite length_fmap, df_len_col. reflexivity.
Qed.

Lemma classified_buckets (df : DataFrame) :
  Forall (fun v => v ∈ ALL_BUCKETS) (df_col (classified df) (lit "bucket")).
Proof.
  rewrite classified_col. apply Forall_fmap, Forall_forall.
  intros v _. apply bucket_of_in.
Qed.

Lemma all_text_inv (vs : list (option str)) :
  forallb is_text vs = true -> exists ts, vs = Some <$> ts.
Proof.
  induction vs as [| [t |] vs IH]; cbn [forallb is_text andb]; intros Hvs.
  - exists []. reflexivity.
  - destruct (IH Hvs) as [ts ->]. exists (t :: ts). reflexivity.
  - discriminate Hvs.
Qed.

Lemma some_missing_inv (vs : list (option str)) :
  forallb is_text vs = false ->
  exists ts rest, vs = (Some <$> ts) ++ None :: rest /\ length ts = texts_before vs.
Proof.
  induction vs as [| [t |] vs IH]; cbn [forallb is_text andb]; intros Hvs.
  - discriminate Hvs.
  - destruct (IH Hvs) as (ts & rest & Hts & Hlen). exists (t :: ts), rest.
    split; [rewrite Hts at 1; reflexivity | cbn; rewrite Hlen; reflexivity].
  - exists [], vs. split; reflexivity.
Qed.

Lemma texts_before_le (vs : list (option str)) : (texts_before vs <= length vs)%nat.
Proof. induction vs as [| [t |] vs IH]; cbn; lia. Qed.

Lemma loop_values_len (df : DataFrame) : length (loop_values df) = df_len df.
Proof. unfold loop_values, str_strip, df_text_col. rewrite !length_fmap. reflexivity. Qed.

(** [df["bucket"] = ""] leaves the "Domain Name" column alone. *)
Lemma loop_values_set_col (df : DataFrame) (v : str) :
  loop_values (df_set_col df (lit "bucket") v) = loop_values df.
Proof.
  unfold loop_values, df_text_col, df_set_col. cbn [rows]. f_equal.
  rewrite <- list_fmap_compose. apply list_fmap_ext. intros _ r _. cbn.
  rewrite lookup_insert_ne by discriminate. reflexivity.
Qed.

(** When no value is missing the loop iterates over the stripped texts
    of the column. *)
Lemma loop_values_text (df : DataFrame) :
  forallb is_text (loop_values df) = true ->
  loop_values df = Some <$> (strip <$> df_col df COLUMN).
Proof.
  unfold loop_values, str_strip, df_text_col, df_col.
  induction (rows df) as [| r rs IH]; cbn [fmap list_fmap forallb]; intros Hvs.
  - reflexivity.
  - apply andb_prop in Hvs as [Hr Hrs]. f_equal; [|exact (IH Hrs)].
    destruct (r !! COLUMN) as [v |]; [reflexivity|].
    destruct astype_str_keeps_na; [discriminate Hr | reflexivity].
Qed.

(** Where [astype(str)] prints a missing cell no value is missing. *)
Lemma loop_values_printed (df : DataFrame) :
  astype_str_keeps_na = false -> forallb is_text (loop_values df) = true.
Proof.
  intros Hna. unfold loop_values, str_strip, df_text_col. rewrite Hna.
  induction (rows df) as [| r rs IH]; cbn [fmap list_fmap forallb]; [reflexivity|].
  rewrite IH. destruct (r !! COLUMN); reflexivity.
Qed.

(** So is it where every row has a "Domain Name" cell. *)
Lemma loop_values_filled (df : DataFrame) :
  Forall (fun r : gmap str str => is_Some (r !! COLUMN)) (rows df) ->
  forallb is_text (loop_values df) = true.
Proof.
  unfold loop_values, str_strip, df_text_col.
  induction 1 as [| r rs [v Hr] _ IH]; cbn [fmap list_fmap forallb]; [reflexivity|].
  rewrite IH, Hr. reflexivity.
Qed.

(** On texts the loop does not raise: it labels the rows and reports
    the checkpoints. *)
Lemma run_loop_spec (total : nat) (doms : list str) (i : nat) (df : DataFrame)
    (tr : list event) :
  run_loop total i (Some <$> doms) df tr =
  (Return (labelled i (bucket_of <$> doms) df),
   tr ++ (Progress <$> checkpoints total i (length doms))).
Proof.
  revert i df tr. induction doms as [| dom doms IH]; intros i df tr.
  - simpl. unfold ret, checkpoints. simpl. rewrite app_nil_r. reflexivity.
  - cbn [run_loop fmap list_fmap]. unfold bind at 1, lift at 1.
    cbn [classify_value]. rewrite classify_bucket_of.
    unfold bind at 1. unfold checkpoints. cbn [length seq]. rewrite filter_cons.
    destruct (Nat.eqb_spec (i mod 50) 0) as [Hi | Hi].
    + rewrite decide_True by exact Hi.
      unfold bind at 1, lift at 1. rewrite percent_returns. unfold emit.
      rewrite IH. cbn [fmap list_fmap]. unfold checkpoints.
      rewrite <- app_assoc. reflexivity.
    + rewrite decide_False by exact Hi.
      unfold ret. rewrite IH. reflexivity.
Qed.

(** At a missing value the loop raises, before the checkpoint of that
    row; the checkpoints of the rows before it have been reported. *)
Lemma run_loop_missing (total : nat) (doms : list str) (rest : list (option str))
    (i : nat) (df : DataFrame) (tr : list event) :
  run_loop total i ((Some <$> doms) ++ None :: rest) df tr =
  (Raise (AttributeError float_has_no_lower),
   tr ++ (Progress <$> checkpoints total i (length doms))).
Proof.
  revert i df tr. induction doms as [| dom doms IH]; intros i df tr.
  - cbn. unfold checkpoints. cbn. rewrite app_nil_r. reflexivity.
  - cbn [run_loop fmap list_fmap app]. unfold bind at 1, lift at 1.
    cbn [classify_value]. rewrite classify_bucket_of.
    unfold bind at 1. unfold checkpoints. cbn [length seq]. rewrite filter_cons.
    destruct (Nat.eqb_spec (i mod 50) 0) as [Hi | Hi].
    + rewrite decide_True by exact Hi.
      unfold bind at 1, lift at 1. rewrite percent_returns. unfold emit.
      rewrite IH. cbn [fmap list_fmap]. unfold checkpoints.
      rewrite <- app_assoc. reflexivity.
    + rewrite decide_False by exact Hi.
      unfold ret. rewrite IH. reflexivity.
Qed.

Lemma multi_sheet_write_cases (df : DataFrame) (dest : Path) (tr : list event) :
  multi_sheet_write df dest tr =
  match excel_save dest (write_sheets df ALL_BUCKETS []) with
  | Return _ => (Return tt, tr ++ [Saved dest (write_sheets df ALL_BUCKETS [])])
  | Raise e => (Raise e, tr ++ clobbers dest (write_sheets df ALL_BUCKETS []))
  end.
Proof.
  unfold multi_sheet_write, try_except, bind, lift, emit, raise, ret, clobbers.
  destruct (excel_save _ _) as [[] | e]; [reflexivity|].
  destruct (excel_touches _ _); [reflexivity | rewrite app_nil_r; reflexivity].
Qed.

Lemma run_body_read_error (self : Worker) (e : exn) :
  read_infile self = Raise e -> run_body self [] = (Raise e, []).
Proof. intros Hr. unfold run_body, bind, lift. rewrite Hr. reflexivity. Qed.

Lemma run_body_missing_column (self : Worker) (df : DataFrame) :
  read_infile self = Return df -> COLUMN ∉ columns df ->
  run_body self [] = (Raise (ValueError schema_message), []).
Proof.
  intros Hr Hc. unfold run_body, bind, lift. rewrite Hr.
  rewrite bool_decide_eq_false_2 by exact Hc. reflexivity.
Qed.

(** A run that meets a missing value fails inside the loop. *)
Lemma run_body_missing_value (self : Worker) (df : DataFrame) :
  read_infile self = Return df -> COLUMN ∈ columns df ->
  forallb is_text (loop_values df) = false ->
  run_body self [] =
  (Raise (AttributeError float_has_no_lower),
   Progress <$> checkpoints (df_len df) 0 (texts_before (loop_values df))).
Proof.
  intros Hr Hc Hna. unfold run_body. unfold bind at 1, lift at 1. rewrite Hr.
  rewrite bool_decide_eq_true_2 by exact Hc. cbn [negb].
  unfold bind at 1, ret at 1. unfold bind at 1.
  rewrite loop_values_set_col.
  destruct (some_missing_inv _ Hna) as (ts & rest & Hvs & Hlen).
  rewrite <- Hlen. rewrite Hvs, run_loop_missing. reflexivity.
Qed.

Lemma run_body_present (self : Worker) (df : DataFrame) :
  read_infile self = Return df -> COLUMN ∈ columns df ->
  forallb is_text (loop_values df) = true ->
  run_body self [] =
  match excel_save (outfile self) (write_sheets (classified df) ALL_BUCKETS []) with
  | Return _ =>
      (Return tt,
       loop_events df ++
       [Saved (outfile self) (write_sheets (classified df) ALL_BUCKETS []);
        Finished (outfile self) [] (final_counts df)])
  | Raise e =>
      (Raise e,
       loop_events df ++
       clobbers (outfile self) (write_sheets (classified df) ALL_BUCKETS []))
  end.
Proof.
  intros Hr Hc Htext. unfold run_body. unfold bind at 1, lift at 1. rewrite Hr.
  rewrite bool_decide_eq_true_2 by exact Hc. cbn [negb].
  unfold bind at 1, ret at 1. unfold bind at 1.
  rewrite <- (loop_values_set_col df []) in Htext.
  rewrite (loop_values_text _ Htext), run_loop_spec.
  rewrite <- list_fmap_compose.
  change (labelled 0 _ _) with (classified df).
  rewrite !length_fmap, df_len_col, df_len_set_col. cbn [app].
  unfold bind at 1, emit at 1. unfold bind at 1.
  rewrite multi_sheet_write_cases. fold (loop_events df).
  destruct (excel_save _ _) as [[] | e]; [|reflexivity].
  unfold bind, emit. rewrite <- app_assoc. reflexivity.
Qed.

(** A [try] block that completes has read a table with the column,
    met no missing value and saved the workbook. *)
Lemma run_body_returns (self : Worker) :
  fst (run_body self []) = Return tt ->
  exists df,
    read_infile self = Return df /\ COLUMN ∈ columns df /\
    forallb is_text (loop_values df) = true /\
    excel_save (outfile self) (write_sheets (classified df) ALL_BUCKETS []) = Return tt.
Proof.
  intros Hok.
  destruct (read_infile self) as [df | e] eqn:Hr.
  2: { rewrite (run_body_read_error self e Hr) in Hok. discriminate Hok. }
  destruct (decide (COLUMN ∈ columns df)) as [Hc | Hc].
  2: { rewrite (run_body_missing_column self df Hr Hc) in Hok. discriminate Hok. }
  destruct (forallb is_text (loop_values df)) eqn:Htext.
  2: { rewrite (run_body_missing_value self df Hr Hc Htext) in Hok. discriminate Hok. }
  rewrite (run_body_present self df Hr Hc Htext) in Hok.
  destruct (excel_save _ _) as [[] | e] eqn:Hs; [|discriminate Hok].
  exists df. auto.
Qed.

Lemma run_events_body (self : Worker) :
  run_events self =
  match run_body self [] with
  | (Return _, tr) => tr
  | (Raise e, tr) => tr ++ [Finished (outfile self) (exn_str e) ∅]
  end.
Proof.
  unfold run_events, run, try_except.
  destruct (run_body self []) as [[[] | e] tr]; reflexivity.
Qed.

(** The events of a run, by the ways it can go. *)
Lemma run_events_cases (self : Worker) :
  run_events self =
  match read_infile self with
  | Raise e => [Finished (outfile self) (exn_str e) ∅]
  | Return df =>
      if bool_decide (COLUMN ∈ columns df) then
        if forallb is_text (loop_values df) then
          loop_events df ++
          match excel_save (outfile self) (write_sheets (classified df) ALL_BUCKETS []) with
          | Return _ =>
              [Saved (outfile self) (write_sheets (classified df) ALL_BUCKETS []);
               Finished (outfile self) [] (final_counts df)]
          | Raise e =>
              clobbers (outfile self) (write_sheets (classified df) ALL_BUCKETS []) ++
              [Finished (outfile self) (exn_str e) ∅]
          end
        else
          (Progress <$> checkpoints (df_len df) 0 (texts_before (loop_values df))) ++
          [Finished (outfile self) float_has_no_lower ∅]
      else [Finished (outfile self) schema_message ∅]
  end.
Proof.
  rewrite run_events_body.
  destruct (read_infile self) as [df | e] eqn:Hr.
  - destruct (bool_decide_reflect (COLUMN ∈ columns df)) as [Hc | Hc].
    + destruct (forallb is_text (loop_values df)) eqn:Htext.
      * rewrite (run_body_present self df Hr Hc Htext).
        destruct (excel_save _ _); [reflexivity|].
        rewrite <- app_assoc. reflexivity.
      * rewrite (run_body_missing_value self df Hr Hc Htext). reflexivity.
    + rewrite (run_body_missing_column self df Hr Hc). reflexivity.
  - rewrite (run_body_read_error self e Hr). reflexivity.
Qed.

Lemma final_counts_spec (df : DataFrame) :
  final_counts df !! lit "TOTAL" = Some (df_len df) /\
  sum_list_with (fun b => default 0%nat (final_counts df !! b)) ALL_BUCKETS = df_len df /\
  (forall k, is_Some (final_counts df !! k) -> k = lit "TOTAL" \/ k ∈ ALL_BUCKETS).
Proof.
  unfold final_counts. split; [apply lookup_insert_eq|]. split.
  - rewrite (sum_list_with_agree _
      (fun b => default 0%nat (value_counts (df_col (classified df) (lit "bucket")) !! b))).
    + rewrite value_counts_total.
      * rewrite df_len_col. apply classified_len.
      * apply ALL_BUCKETS_NoDup.
      * apply classified_buckets.
    + intros b Hb. rewrite lookup_insert_ne; [reflexivity|].
      intros <-. exact (TOTAL_not_bucket Hb).
  - intros k Hk. destruct (decide (k = lit "TOTAL")) as [-> | Hne]; [left; reflexivity|].
    right. rewrite lookup_insert_ne in Hk by congruence.
    apply value_counts_keys in Hk.
    pose proof (classified_buckets df) as Hall. rewrite Forall_forall in Hall. auto.
Qed.

(** C6: when the table read from the input has no column named
    "Domain Name", the [try] block raises [ValueError] with a readable
    message, and the run consists of the single [finished] signal
    carrying that message and an empty dictionary; no progress is
    reported and no workbook is saved. *)
Theorem missing_column_schema_error (self : Worker) (df : DataFrame) :
  read_infile self = Return df -> COLUMN ∉ columns df ->
  fst (run_body self []) = Raise (ValueError schema_message) /\
  schema_message = lit "Input must contain a 'Domain Name' column." /\
  run_events self = [Finished (outfile self) schema_message ∅] /\
  saved_of (run_events self) = [].
Proof.
  intros Hr Hc.
  rewrite run_events_cases, Hr, bool_decide_eq_false_2 by exact Hc.
  rewrite (run_body_missing_column self df Hr Hc).
  repeat split; reflexivity.
Qed.

(** C7, as amended: in every run the reported percentages are
    non-decreasing and lie between 0 and 100, and exactly one
    [finished] signal is emitted, as the last event.  When the input
    was read, has the required column and no value of the column is
    missing after [astype(str)], the percentages are one checkpoint
    for each row index divisible by 50 followed by a final 100; no
    value is missing where [astype(str)] prints a missing cell as
    "nan", or where every row has a "Domain Name" cell.  A run that
    fails before the loop reports no progress at all; a run that meets
    a value still missing after [astype(str)] fails inside the loop at
    that row with the [AttributeError] of [classify], having reported
    only the checkpoints of the rows before it. *)
Theorem progress_sequence (self : Worker) :
  StronglySorted Z.le (progress_of (run_events self)) /\
  Forall (fun p => (0 <= p <= 100)%Z) (progress_of (run_events self)) /\
  length (List.filter is_finished (run_events self)) = 1%nat /\
  (exists ev, last (run_events self) = Some ev /\ is_finished ev = true) /\
  match read_infile self with
  | Return df =>
      if bool_decide (COLUMN ∈ columns df) then
        (astype_str_keeps_na = false \/
         Forall (fun r : gmap str str => is_Some (r !! COLUMN)) (rows df) ->
         forallb is_text (loop_values df) = true) /\
        if forallb is_text (loop_values df) then
          progress_of (run_events self) = checkpoints (df_len df) 0 (df_len df) ++ [100%Z] /\
          last (progress_of (run_events self)) = Some 100%Z
        else
          progress_of (run_events self) =
            checkpoints (df_len df) 0 (texts_before (loop_values df)) /\
          last (run_events self) = Some (Finished (outfile self) float_has_no_lower ∅)
      else progress_of (run_events self) = []
  | Raise _ => progress_of (run_events self) = []
  end.
Proof.
  rewrite run_events_cases.
  destruct (read_infile self) as [df | e].
  - destruct (bool_decide (COLUMN ∈ columns df)).
    + assert (Htext : astype_str_keeps_na = false \/
                Forall (fun r : gmap str str => is_Some (r !! COLUMN)) (rows df) ->
                forallb is_text (loop_values df) = true).
      { intros [Hna | Hcells];
          [apply loop_values_printed, Hna | apply loop_values_filled, Hcells]. }
      revert Htext. destruct (forallb is_text (loop_values df)); intros Htext.
      * assert (Hp : forall tail, progress_of tail = [] ->
                  progress_of (loop_events df ++ tail) =
                  checkpoints (df_len df) 0 (df_len df) ++ [100%Z]).
        { intros tail Ht. rewrite progress_of_app, loop_events_progress, Ht.
          apply app_nil_r. }
        assert (Hf : forall tail, length (List.filter is_finished (loop_events df ++ tail)) =
                  length (List.filter is_finished tail)).
        { intros tail. rewrite List.filter_app, loop_events_finished. reflexivity. }
        assert (Hc : forall e, progress_of
                  (clobbers (outfile self) (write_sheets (classified df) ALL_BUCKETS []) ++
                   [Finished (outfile self) (exn_str e) ∅]) = [] /\
                  length (List.filter is_finished
                  (clobbers (outfile self) (write_sheets (classified df) ALL_BUCKETS []) ++
                   [Finished (outfile self) (exn_str e) ∅])) = 1%nat).
        { intros e. unfold clobbers. destruct (excel_touches _ _); split; reflexivity. }
        destruct (excel_save _ _) as [u | e].
        -- rewrite Hp by reflexivity. rewrite Hf.
           split; [apply loop_progress_sorted|].
           split; [apply loop_progress_range|].
           split; [reflexivity|].
           split; [|split; [exact Htext | split; [reflexivity | apply last_snoc]]].
           exists (Finished (outfile self) [] (final_counts df)). split; [|reflexivity].
           rewrite last_app. reflexivity.
        -- rewrite Hp by apply Hc. rewrite Hf.
           split; [apply loop_progress_sorted|].
           split; [apply loop_progress_range|].
           split; [apply Hc|].
           split; [|split; [exact Htext | split; [reflexivity | apply last_snoc]]].
           exists (Finished (outfile self) (exn_str e) ∅).
           split; [|reflexivity]. rewrite !app_assoc. apply last_snoc.
      * rewrite progress_of_app, progress_of_Progress, app_nil_r.
        rewrite List.filter_app, filter_finished_Progress.
        split; [apply checkpoints_sorted|].
        split; [apply checkpoints_range_upto; rewrite <- loop_values_len;
                apply texts_before_le|].
        split; [reflexivity|].
        split; [|split; [exact Htext | split; [reflexivity | apply last_snoc]]].
        eexists. split; [apply last_snoc | reflexivity].
    + repeat split; try constructor. eexists. split; reflexivity.
  - repeat split; try constructor. eexists. split; reflexivity.
Qed.

(** C8: when the [try] block of a run completes, the dictionary sent
    with the [finished] signal has under "TOTAL" the number of rows of
    the input table, the entries of the buckets of [ALL_BUCKETS] add
    up to that number, and it has no key besides "TOTAL" and the
    buckets. *)
Theorem counts_sum_to_total (self : Worker) :
  fst (run_body self []) = Return tt ->
  exists df counts,
    read_infile self = Return df /\
    last (run_events self) = Some (Finished (outfile self) [] counts) /\
    counts !! lit "TOTAL" = Some (df_len df) /\
    sum_list_with (fun b => default 0%nat (counts !! b)) ALL_BUCKETS = df_len df /\
    (forall k, is_Some (counts !! k) -> k = lit "TOTAL" \/ k ∈ ALL_BUCKETS).
Proof.
  intros Hok. rewrite run_events_cases.
  destruct (read_infile self) as [df | e] eqn:Hr.
  - destruct (bool_decide_reflect (COLUMN ∈ columns df)) as [Hc | Hc].
    + destruct (forallb is_text (loop_values df)) eqn:Htext.
      * rewrite (run_body_present self df Hr Hc Htext) in Hok.
        destruct (excel_save _ _) as [u | e]; [|discriminate Hok].
        exists df, (final_counts df). split; [reflexivity|].
        split; [rewrite last_app; reflexivity|]. apply final_counts_spec.
      * rewrite (run_body_missing_value self df Hr Hc Htext) in Hok. discriminate Hok.
    + rewrite (run_body_missing_column self df Hr Hc) in Hok. discriminate Hok.
  - rewrite (run_body_read_error self e Hr) in Hok. discriminate Hok.
Qed.

(** C10: the divisor [max(total, 1)] is never zero, so [percent]
    returns for every row index and every row count, zero included;
    and for a table with the required column and no rows the loop has
    nothing to iterate over, the frame is left as it was, and the only
    progress reported is the final 100. *)
Theorem percent_division_guarded :
  (forall i total : nat, (Z.max (Z.of_nat total) 1 <> 0)%Z /\
     percent i total = Return (percent_value i total)) /\
  (forall (self : Worker) (df : DataFrame),
     read_infile self = Return df -> COLUMN ∈ columns df -> df_len df = 0%nat ->
     strip <$> df_col (df_set_col df (lit "bucket") []) COLUMN = [] /\
     loop_values (df_set_col df (lit "bucket") []) = [] /\
     classified df = df_set_col df (lit "bucket") [] /\
     progress_of (run_events self) = [100%Z]).
Proof.
  split.
  - intros i total. split; [lia | apply percent_returns].
  - intros self df Hr Hc Hlen.
    assert (Hrows : rows df = []) by (apply length_zero_iff_nil; exact Hlen).
    assert (Hcol : df_col (df_set_col df (lit "bucket") []) COLUMN = []).
    { unfold df_col, df_set_col. simpl. rewrite Hrows. reflexivity. }
    assert (Hvs : loop_values df = []).
    { apply length_zero_iff_nil. rewrite loop_values_len. exact Hlen. }
    split; [rewrite Hcol; reflexivity|].
    split; [rewrite loop_values_set_col; exact Hvs|]. split.
    + unfold classified. cbv zeta. rewrite Hcol. reflexivity.
    + rewrite run_events_cases, Hr, bool_decide_eq_true_2 by exact Hc.
      rewrite Hvs. cbn [forallb].
      rewrite progress_of_app, loop_events_progress, Hlen.
      destruct (excel_save _ _); [reflexivity|].
      unfold clobbers. destruct (excel_touches _ _); reflexivity.
Qed.

End RunFacts.

(** ** Runs on the reference libraries *)

Lemma missing_column_schema_error_witness :
  @read_infile Ref.domain_lib (Ref.table_io Ref.no_column_table) Ref.worker =
    Return Ref.no_column_table /\
  (COLUMN ∉ columns Ref.no_column_table) /\
  Ref.run_on Ref.no_column_table = [Finished (lit "out.xlsx") schema_message ∅] /\
  saved_of (Ref.run_on Ref.no_column_table) = [].
Proof.
  assert (Hr : @read_infile Ref.domain_lib (Ref.table_io Ref.no_column_table) Ref.worker =
               Return Ref.no_column_table) by reflexivity.
  assert (Hc : COLUMN ∉ columns Ref.no_column_table)
    by (apply (bool_decide_unpack _); vm_compute; exact I).
  split; [exact Hr|]. split; [exact Hc|].
  exact (proj2 (proj2
    (@missing_column_schema_error Ref.domain_lib (Ref.table_io Ref.no_column_table)
       Ref.worker Ref.no_column_table Hr Hc))).
Defined.

(** C7 as stated fails on a run that stops at the schema check: no
    percentage is reported, so the sequence does not end with 100. *)
Lemma progress_missing_on_failure :
  Ref.run_on Ref.no_column_table = [Finished (lit "out.xlsx") schema_message ∅] /\
  progress_of (Ref.run_on Ref.no_column_table) = [] /\
  last (progress_of (Ref.run_on Ref.no_column_table)) <> Some 100%Z.
Proof. vm_compute. repeat split; discriminate || reflexivity. Qed.

Lemma counts_sum_to_total_witness :
  fst (@run_body Ref.domain_lib (Ref.table_io Ref.sample_table) Ref.worker []) = Return tt /\
  exists counts,
    last (Ref.run_on Ref.sample_table) = Some (Finished (lit "out.xlsx") [] counts) /\
    counts !! lit "TOTAL" = Some 4%nat /\
    sum_list_with (fun b => default 0%nat (counts !! b)) ALL_BUCKETS = 4%nat.
Proof.
  assert (Hok : fst (@run_body Ref.domain_lib (Ref.table_io Ref.sample_table) Ref.worker [])
                = Return tt) by (vm_compute; reflexivity).
  split; [exact Hok|].
  destruct (@counts_sum_to_total Ref.domain_lib (Ref.table_io Ref.sample_table) Ref.worker Hok)
    as (df' & counts & Hr & Hlast & Htotal & Hsum & _).
  injection Hr as <-. exists counts. auto.
Defined.

Lemma percent_division_guarded_witness :
  percent 0 0 = Return 0%Z /\ progress_of (Ref.run_on Ref.empty_table) = [100%Z].
Proof.
  split.
  - exact (proj2 (proj1 (@percent_division_guarded Ref.domain_lib
                           (Ref.table_io Ref.empty_table)) 0%nat 0%nat)).
  - apply (proj2 (@percent_division_guarded Ref.domain_lib (Ref.table_io Ref.empty_table))
             Ref.worker Ref.empty_table).
    + reflexivity.
    + apply (bool_decide_unpack _). vm_compute. exact I.
    + reflexivity.
Defined.

Lemma multi_sheet_write_sheets_witness :
  sheet_name <$> write_sheets (@classified Ref.domain_lib Ref.sample_table) ALL_BUCKETS [] =
  [lit "ASCII.CN"; lit ".COM.CN"; lit "UNCLASSIFIED"].
Proof.
  rewrite (proj1 (@multi_sheet_write_sheets (Ref.table_io Ref.sample_table)
                    (@classified Ref.domain_lib Ref.sample_table) (lit "out.xlsx"))).
  vm_compute. reflexivity.
Defined.

(** The percentages Python computes, for comparison: [int(29 / 100 *
    100)] is 28 and [int(57 / 100 * 100)] is 56 in binary64. *)
Example percent_values :
  percent 50 100 = Return 50%Z /\ percent 29 100 = Return 28%Z /\
  percent 57 100 = Return 56%Z /\ percent 1 3 = Return 33%Z /\
  percent 0 0 = Return 0%Z.
Proof. vm_compute. repeat split; reflexivity. Qed.

Example run_sample :
  progress_of (Ref.run_on Ref.sample_table) = [0%Z; 100%Z] /\
  (fun p : Path * list Sheet => (fst p, sheet_name <$> snd p)) <$>
    saved_of (Ref.run_on Ref.sample_table) =
  [(lit "out.xlsx", [lit "ASCII.CN"; lit ".COM.CN"; lit "UNCLASSIFIED"])].
Proof. vm_compute. split; reflexivity. Qed.

(** A blank "Domain Name" field under the two behaviours of
    [astype(str)].  Where the missing value is kept, the run fails at
    that row, after the checkpoint of the row before it; where it is
    printed, the row is classified as the text "nan". *)
Example run_blank_cell :
  Ref.run_on_na Ref.blank_cell_table =
    [ Progress 0;
      Finished (lit "out.xlsx") (lit "'float' object has no attribute 'lower'") ∅ ] /\
  progress_of (Ref.run_on Ref.blank_cell_table) = [0%Z; 100%Z] /\
  last (Ref.run_on Ref.blank_cell_table) =
    Some (Finished (lit "out.xlsx") []
            (<[lit "ASCII.CN" := 1%nat]>
               (<[lit "UNCLASSIFIED" := 1%nat]> {[ lit "TOTAL" := 2%nat ]}))).
Proof. vm_compute. repeat split; reflexivity. Qed.

(** * Further facts

    ** More on the classifier *)

Lemma rule2_iff (sfx : str) :
  rule2 sfx = true <-> sfx = lit "xn--fiqs8s" \/ sfx = lit "xn--fiqz9s".
Proof.
  unfold rule2. rewrite bool_decide_eq_true. unfold PUNY_TLDS. set_solver.
Qed.

Lemma rule2_not_rule3 (sfx : str) : rule2 sfx = true -> rule3 sfx = false.
Proof. intros Hs. apply rule2_iff in Hs as [-> | ->]; reflexivity. Qed.

Lemma rule2_not_rule1 (sfx : str) : rule2 sfx = true -> rule1 sfx = false.
Proof. intros Hs. apply rule2_iff in Hs as [-> | ->]; reflexivity. Qed.

Section ClassifierMore.

Context `{DomainLib}.

(** X1: each label is returned for exactly one condition on the
    suffix and label extracted from the lower-cased domain: the three
    generic buckets for their three suffixes, the two XN--FIQS8S buckets
    for a suffix of [PUNY_TLDS] by the script of the label, the two CN
    buckets for a non-generic suffix that is "cn" or ends with ".cn",
    and "IDN.IDN" only when rules 1 to 3 all fail and step 4 matches. *)
Theorem classify_inversion (d : str) :
  let sfx := suffix (extract (lower d)) in
  let sld := domain (extract (lower d)) in
  (classify d = Return (lit ".COM.CN") <-> sfx = lit "com.cn") /\
  (classify d = Return (lit ".NET.CN") <-> sfx = lit "net.cn") /\
  (classify d = Return (lit ".ORG.CN") <-> sfx = lit "org.cn") /\
  (classify d = Return (lit "IDN.XN--FIQS8S") <-> rule2 sfx = true /\ is_idn sld = true) /\
  (classify d = Return (lit "ASCII.XN--FIQS8S") <-> rule2 sfx = true /\ is_idn sld = false) /\
  (classify d = Return (lit "IDN.CN") <->
     rule1 sfx = false /\ rule3 sfx = true /\ is_idn sld = true) /\
  (classify d = Return (lit "ASCII.CN") <->
     rule1 sfx = false /\ rule3 sfx = true /\ is_idn sld = false) /\
  (classify d = Return (lit "IDN.IDN") <->
     rule1 sfx = false /\ rule2 sfx = false /\ rule3 sfx = false /\ rule4 d = true).
Proof.
  intros sfx sld. rewrite classify_cases. fold sfx sld.
  destruct (GENERIC_SLD !! sfx) as [b|] eqn:Hg.
  - assert (H1 : rule1 sfx = true) by (apply rule1_iff; eauto).
    pose proof (generic_suffix_ends_with_cn _ _ Hg) as H3.
    assert (H2 : rule2 sfx = false).
    { destruct (rule2 sfx) eqn:E; [|reflexivity].
      apply rule2_not_rule3 in E. congruence. }
    rewrite H1, H2. clear H1 H2 H3.
    apply GENERIC_SLD_lookup in Hg as [[-> ->] | [[-> ->] | [-> ->]]];
      repeat split; intros; first [reflexivity | discriminate | (destruct_and?; discriminate)].
  - pose proof (proj2 (rule1_false sfx) Hg) as H1. rewrite H1.
    assert (Hn1 : sfx <> lit "com.cn") by (intros E; rewrite E in Hg; discriminate Hg).
    assert (Hn2 : sfx <> lit "net.cn") by (intros E; rewrite E in Hg; discriminate Hg).
    assert (Hn3 : sfx <> lit "org.cn") by (intros E; rewrite E in Hg; discriminate Hg).
    clear Hg H1.
    destruct (rule2 sfx) eqn:H2.
    + rewrite (rule2_not_rule3 _ H2).
      destruct (is_idn sld); repeat split; intros;
        first [reflexivity | discriminate | contradiction | (destruct_and?; discriminate)].
    + destruct (rule3 sfx), (is_idn sld), (rule4 d); repeat split; intros;
        first [reflexivity | discriminate | contradiction | (destruct_and?; discriminate)].
Qed.

(** X2: when one of rules 1 to 3 fires on the lower-cased domain (and
    lower-casing that form again changes nothing), the label does not
    depend on the case of the input. *)
Theorem classify_ignores_case_on_rules123 (d : str) :
  lower (lower d) = lower d ->
  rule1 (suffix (extract (lower d))) || rule2 (suffix (extract (lower d)))
    || rule3 (suffix (extract (lower d))) = true ->
  classify d = classify (lower d).
Proof. apply classify_lower_rules123. Qed.

End ClassifierMore.

(** ** Whitespace *)

Lemma lstrip_spaces (ws s : str) :
  forallb py_isspace ws = true -> lstrip (ws ++ s) = lstrip s.
Proof.
  induction ws as [| c ws IH]; [reflexivity|]. cbn [forallb app lstrip].
  intros Hws. apply andb_true_iff in Hws as [Hc Hws]. rewrite Hc. auto.
Qed.

Lemma lstrip_nil_spaces (s : str) : lstrip s = [] -> forallb py_isspace s = true.
Proof.
  induction s as [| c s IH]; [reflexivity|]. cbn [lstrip forallb].
  destruct (py_isspace c); [exact IH | discriminate].
Qed.

Lemma lstrip_app (s t : str) : lstrip s <> [] -> lstrip (s ++ t) = lstrip s ++ t.
Proof.
  induction s as [| c s IH]; [intros Hne; exfalso; apply Hne; reflexivity|].
  cbn [lstrip app]. destruct (py_isspace c); [exact IH | reflexivity].
Qed.

Lemma forallb_rev (ws : str) :
  forallb py_isspace ws = true -> forallb py_isspace (rev ws) = true.
Proof.
  rewrite !forallb_forall. intros Hws c Hc. apply Hws, in_rev. exact Hc.
Qed.

Lemma strip_padding (ws1 s ws2 : str) :
  forallb py_isspace ws1 = true -> forallb py_isspace ws2 = true ->
  strip (ws1 ++ s ++ ws2) = strip s.
Proof.
  intros H1 H2. unfold strip. rewrite lstrip_spaces by exact H1.
  destruct (lstrip s) as [| c s'] eqn:Hs.
  - assert (E : lstrip (s ++ ws2) = []).
    { rewrite <- (app_nil_r (s ++ ws2)). apply (lstrip_spaces (s ++ ws2) []).
      rewrite forallb_app, H2, (lstrip_nil_spaces s Hs). reflexivity. }
    rewrite E. reflexivity.
  - rewrite lstrip_app by (rewrite Hs; discriminate). rewrite Hs, rev_app_distr.
    rewrite lstrip_spaces by (apply forallb_rev; exact H2). reflexivity.
Qed.

(** ** The labelled frame *)

Lemma labelled_columns (bs : list str) (i : nat) (df : DataFrame) :
  columns (labelled i bs df) = columns df.
Proof.
  revert i df. induction bs as [| b bs IH]; intros i df; simpl; [reflexivity|].
  rewrite IH. reflexivity.
Qed.

Lemma labelled_rows (bs : list str) (pre rest : list (gmap str str)) (df : DataFrame) :
  rows df = pre ++ rest -> length rest = length bs ->
  rows (labelled (length pre) bs df) =
  pre ++ zip_with (fun r b => <[lit "bucket" := b]> r) rest bs.
Proof.
  revert pre rest df. induction bs as [| b bs IH]; intros pre rest df Hrows Hlen.
  - destruct rest; [|discriminate Hlen]. simpl. exact Hrows.
  - destruct rest as [| r rest]; [discriminate Hlen|].
    cbn [labelled zip_with].
    replace (S (length pre)) with (length (pre ++ [<[lit "bucket" := b]> r]))
      by (rewrite length_app; simpl; lia).
    rewrite (IH (pre ++ [<[lit "bucket" := b]> r]) rest).
    + rewrite <- app_assoc. reflexivity.
    + unfold df_at_set. cbn [rows]. rewrite Hrows.
      replace (length pre) with (length pre + 0)%nat at 1 by lia.
      rewrite alter_app_r. cbn. rewrite <- app_assoc. reflexivity.
    + simpl in Hlen. lia.
Qed.

Lemma COLUMN_not_bucket : lit "bucket" <> COLUMN.
Proof. discriminate. Qed.

Section FrameFacts.

Context `{DomainLib}.

Lemma classified_rows (df : DataFrame) :
  rows (classified df) = label_row <$> rows df.
Proof.
  unfold classified. cbv zeta.
  rewrite (labelled_rows _ [] (rows (df_set_col df (lit "bucket") []))); [|reflexivity|].
  - cbn [app]. unfold df_col, df_set_col. cbn [rows].
    rewrite <- !list_fmap_compose, zip_with_fmap_l, zip_with_fmap_r, zip_with_diag.
    apply list_fmap_ext. intros i r _. unfold label_row. cbn.
    rewrite insert_insert_eq, lookup_insert_ne by exact COLUMN_not_bucket. reflexivity.
  - rewrite length_fmap. unfold df_col. rewrite length_fmap. reflexivity.
Qed.

Lemma classified_columns (df : DataFrame) :
  columns (classified df) =
  if bool_decide (lit "bucket" ∈ columns df) then columns df
  else columns df ++ [lit "bucket"].
Proof. unfold classified. cbv zeta. rewrite labelled_columns. reflexivity. Qed.

(** X3: the loop leaves every row as it was except for its "bucket"
    cell, which holds the label of the stripped "Domain Name" cell; the
    number and order of rows and every other column are unchanged, and
    the column list gains "bucket" unless the input already had it (in
    which case its old values are overwritten). *)
Theorem classified_frame (df : DataFrame) :
  rows (classified df) = label_row <$> rows df /\
  df_len (classified df) = df_len df /\
  df_col (classified df) (lit "bucket") =
    (fun v => bucket_of (strip v)) <$> df_col df COLUMN /\
  (forall c, c <> lit "bucket" -> df_col (classified df) c = df_col df c) /\
  columns (classified df) =
    (if bool_decide (lit "bucket" ∈ columns df) then columns df
     else columns df ++ [lit "bucket"]).
Proof.
  split; [apply classified_rows|]. split; [apply classified_len|].
  split; [|split; [|apply classified_columns]].
  - unfold df_col. rewrite classified_rows, <- !list_fmap_compose.
    apply list_fmap_ext. intros i r _. unfold label_row. cbn.
    rewrite lookup_insert_eq. reflexivity.
  - intros c Hc. unfold df_col. rewrite classified_rows, <- list_fmap_compose.
    apply list_fmap_ext. intros i r _. unfold label_row. cbn.
    rewrite lookup_insert_ne by (intros E; apply Hc; symmetry; exact E). reflexivity.
Qed.

(** X4: white space around the "Domain Name" cell does not change the
    label a row gets. *)
Theorem padding_keeps_label (r : gmap str str) (ws1 v ws2 : str) :
  forallb py_isspace ws1 = true -> forallb py_isspace ws2 = true ->
  label_row (<[COLUMN := ws1 ++ v ++ ws2]> r) !! lit "bucket" =
    Some (bucket_of (strip v)) /\
  label_row (<[COLUMN := ws1 ++ v ++ ws2]> r) !! lit "bucket" =
    label_row (<[COLUMN := v]> r) !! lit "bucket".
Proof.
  intros H1 H2. unfold label_row.
  rewrite !lookup_insert_eq. cbn [default id].
  rewrite (strip_padding ws1 v ws2 H1 H2). split; reflexivity.
Qed.

End FrameFacts.

(** ** Checkpoint counts *)

Lemma div50_step (n : nat) :
  ((S n + 49) / 50 = (n + 49) / 50 + (if decide (n mod 50 = 0) then 1 else 0))%nat.
Proof.
  pose proof (Nat.div_mod_eq n 50) as Hn.
  pose proof (Nat.mod_upper_bound n 50 ltac:(lia)) as Hr.
  set (q := (n / 50)%nat) in *. set (r := (n mod 50)%nat) in *.
  destruct (decide (r = 0)%nat) as [Hz | Hnz].
  - rewrite <- (Nat.div_unique (n + 49) 50 q 49) by lia.
    rewrite <- (Nat.div_unique (S n + 49) 50 (S q) 0) by lia. lia.
  - rewrite <- (Nat.div_unique (n + 49) 50 (S q) (r - 1)) by lia.
    rewrite <- (Nat.div_unique (S n + 49) 50 (S q) r) by lia. lia.
Qed.

Lemma checkpoints_length (total n : nat) :
  length (checkpoints total 0 n) = ((n + 49) / 50)%nat.
Proof.
  unfold checkpoints. rewrite length_fmap.
  induction n as [| n IH]; [reflexivity|].
  rewrite seq_S, filter_app, length_app, IH, div50_step. cbn [Nat.add].
  rewrite filter_cons, filter_nil. destruct (decide (n mod 50 = 0)%nat); reflexivity.
Qed.

(** ** Percentages below one hundred *)

Lemma percent_value_below_100 (i total : nat) :
  (i < total)%nat -> (Z.of_nat total <= 2 ^ 53)%Z ->
  (0 <= percent_value i total <= 99)%Z.
Proof.
  intros Hi Ht.
  destruct (percent_value_range i total ltac:(lia)) as [H0 _]. split; [exact H0|].
  unfold percent_value, Float64.mul.
  set (u := (9007199254740991 # 9007199254740992)%Q).
  destruct (ratio_bounds i i total (le_n i)) as [Hq0 _].
  assert (Hq : (inject_Z (Z.of_nat i) / inject_Z (Z.max (Z.of_nat total) 1) <= u)%Q).
  { apply Qle_shift_div_r.
    - change 0%Q with (inject_Z 0). rewrite <- Zlt_Qlt. lia.
    - unfold u, Qle. cbn [Qnum Qden inject_Z Qmult]. 
      change (2 ^ 53)%Z with 9007199254740992%Z in Ht. lia. }
  pose proof (Float64Facts.round_nonneg _ Hq0) as Hr0.
  pose proof (Float64Facts.round_mono _ _ Hq0 Hq) as Hr.
  destruct (scaled_by_100 _ _ Hr0 Hr) as [Hs0 Hs].
  pose proof (Float64Facts.round_nonneg _ Hs0) as Ht0.
  pose proof (Float64Facts.round_mono _ _ Hs0 Hs) as Hm.
  rewrite Float64Facts.to_int_nonneg by exact Ht0.
  apply Qfloor_resp_le in Hm.
  eapply Z.le_trans; [exact Hm|]. vm_compute. discriminate.
Qed.

(** ** Sheets and counts *)

Lemma value_counts_filter (rs : list (gmap str str)) (c b : str) :
  default 0%nat (value_counts ((fun r : gmap str str => default (lit "nan") (r !! c)) <$> rs) !! b) =
  length (filter (fun r : gmap str str => default (lit "nan") (r !! c) = b) rs).
Proof.
  induction rs as [| r rs IH]; [reflexivity|].
  rewrite fmap_cons, value_counts_cons, filter_cons, IH.
  destruct (decide (b = default (lit "nan") (r !! c))) as [-> | Hne].
  - rewrite decide_True by reflexivity. reflexivity.
  - rewrite decide_False by congruence. reflexivity.
Qed.

Lemma value_counts_positive (col : list str) (k : str) (n : nat) :
  value_counts col !! k = Some n -> n <> 0%nat.
Proof.
  revert n. induction col as [| v col IH]; intros n; cbn [value_counts foldr].
  - rewrite lookup_empty. discriminate.
  - fold (value_counts col). destruct (decide (k = v)) as [-> | Hne].
    + rewrite lookup_insert_eq. intros [= <-]. lia.
    + rewrite lookup_insert_ne by congruence. apply IH.
Qed.

Lemma value_counts_lookup (col : list str) (k : str) :
  value_counts col !! k =
  if decide (default 0%nat (value_counts col !! k) = 0%nat) then None
  else Some (default 0%nat (value_counts col !! k)).
Proof.
  destruct (value_counts col !! k) as [n|] eqn:Hk; [|reflexivity].
  apply value_counts_positive in Hk. cbn. rewrite decide_False by exact Hk. reflexivity.
Qed.

Lemma has_rows_length (df : DataFrame) (b : str) :
  has_rows df b = true <-> length (rows (df_where df (lit "bucket") b)) <> 0%nat.
Proof.
  unfold has_rows, df_empty. destruct (rows (df_where df (lit "bucket") b)); simpl.
  - split; [discriminate | intros Hne; contradiction Hne; reflexivity].
  - split; [intros _; discriminate | reflexivity].
Qed.

Lemma sum_sheets (df : DataFrame) (l : list str) :
  sum_list_with (fun s => length (rows (sheet_data s)))
    (sheet_for df <$> filter (fun b => has_rows df b = true) l) =
  sum_list_with (fun b => length (rows (df_where df (lit "bucket") b))) l.
Proof.
  induction l as [| b l IH]; [reflexivity|].
  rewrite filter_cons. cbn [sum_list_with]. rewrite <- IH.
  destruct (decide (has_rows df b = true)) as [Hb | Hb].
  - reflexivity.
  - assert (E : length (rows (df_where df (lit "bucket") b)) = 0%nat).
    { destruct (Nat.eq_dec (length (rows (df_where df (lit "bucket") b))) 0%nat) as [E | E];
        [exact E | apply has_rows_length in E; contradiction]. }
    rewrite E. reflexivity.
Qed.

Section WorkbookFacts.

Context `{DomainLib} `{TableIO}.

Lemma final_counts_bucket (df : DataFrame) (b : str) :
  b ∈ ALL_BUCKETS ->
  final_counts df !! b =
  if has_rows (classified df) b
  then Some (length (rows (df_where (classified df) (lit "bucket") b)))
  else None.
Proof.
  intros Hb. unfold final_counts.
  rewrite lookup_insert_ne by (intros <-; exact (TOTAL_not_bucket Hb)).
  rewrite (value_counts_lookup (df_col (classified df) (lit "bucket")) b).
  unfold df_col. rewrite value_counts_filter.
  change (filter _ (rows (classified df))) with (rows (df_where (classified df) (lit "bucket") b)).
  destruct (has_rows (classified df) b) eqn:Hr.
  - apply has_rows_length in Hr. rewrite decide_False by exact Hr. reflexivity.
  - destruct (decide _) as [_ | Hne]; [reflexivity|].
    apply has_rows_length in Hne. congruence.
Qed.

Lemma sheets_total (df : DataFrame) :
  sum_list_with (fun s => length (rows (sheet_data s)))
    (write_sheets (classified df) ALL_BUCKETS []) = df_len df.
Proof.
  rewrite write_sheets_app. cbn [app]. rewrite sum_sheets.
  rewrite <- (proj1 (proj2 (final_counts_spec df))).
  apply sum_list_with_agree. intros b Hb.
  rewrite (final_counts_bucket df b Hb).
  destruct (has_rows (classified df) b) eqn:Hr; [reflexivity|].
  destruct (Nat.eq_dec (length (rows (df_where (classified df) (lit "bucket") b))) 0%nat)
    as [E | E]; [exact E|].
  apply has_rows_length in E. congruence.
Qed.

(** X5: after a run whose [try] block completes, the dictionary sent
    with [finished] has, for every sheet of the saved workbook, the
    number of rows of that sheet under the sheet's name, has no entry
    for a bucket without a sheet, and the sheets together hold as many
    rows as the input table: no row is lost or written twice. *)
Theorem workbook_agrees_with_counts (self : Worker) :
  fst (run_body self []) = Return tt ->
  exists df book counts,
    read_infile self = Return df /\
    run_events self =
      loop_events df ++ [Saved (outfile self) book; Finished (outfile self) [] counts] /\
    (forall s, s ∈ book ->
       counts !! sheet_name s = Some (length (rows (sheet_data s)))) /\
    (forall b, b ∈ ALL_BUCKETS -> b ∉ sheet_name <$> book -> counts !! b = None) /\
    sum_list_with (fun s => length (rows (sheet_data s))) book = df_len df.
Proof.
  intros Hok. destruct (run_body_returns self Hok) as (df & Hr & Hc & Htext & Hsave).
  rewrite run_events_cases, Hr, bool_decide_eq_true_2, Htext, Hsave by exact Hc.
  exists df, (write_sheets (classified df) ALL_BUCKETS []), (final_counts df).
  split; [reflexivity|]. split; [reflexivity|].
  split; [|split; [|apply sheets_total]].
  - intros s Hs. rewrite write_sheets_app in Hs. cbn [app] in Hs.
    apply list_elem_of_fmap in Hs as (b & -> & Hb).
    apply list_elem_of_filter in Hb as [Hrows Hb].
    cbn [sheet_for sheet_name sheet_data]. rewrite (slice_ALL_BUCKETS b Hb).
    rewrite (final_counts_bucket df b Hb), Hrows. reflexivity.
  - intros b Hb Hno. rewrite (final_counts_bucket df b Hb).
    destruct (has_rows (classified df) b) eqn:Hrows; [|reflexivity].
    exfalso. apply Hno. rewrite write_sheets_app. cbn [app].
    apply list_elem_of_fmap. exists (sheet_for (classified df) b). split.
    + cbn. symmetry. apply slice_ALL_BUCKETS, Hb.
    + apply list_elem_of_fmap. exists b. split; [reflexivity|].
      apply list_elem_of_filter. split; assumption.
Qed.

(** X6: the workbook handed to the writer has no sheet at all exactly
    when the input table has no rows. *)
Theorem sheets_empty_iff (df : DataFrame) :
  write_sheets (classified df) ALL_BUCKETS [] = [] <-> df_len df = 0%nat.
Proof.
  pose proof (sheets_total df) as Hsum. split.
  - intros Hnil. rewrite Hnil in Hsum. simpl in Hsum. lia.
  - intros Hlen. rewrite Hlen in Hsum.
    destruct (write_sheets (classified df) ALL_BUCKETS []) as [| s book] eqn:Hbook;
      [reflexivity | exfalso].
    assert (Hs : s ∈ write_sheets (classified df) ALL_BUCKETS [])
      by (rewrite Hbook; apply list_elem_of_here).
    rewrite write_sheets_app in Hs. cbn [app] in Hs.
    apply list_elem_of_fmap in Hs as (b & -> & Hb).
    apply list_elem_of_filter in Hb as [Hrows _].
    apply has_rows_length in Hrows. cbn [sum_list_with sheet_for sheet_data] in Hsum. lia.
Qed.

(** X7: when reading the input file raises, the run is the single
    [finished] signal carrying the text of the exception and an empty
    dictionary. *)
Theorem read_failure_reported (self : Worker) (e : exn) :
  read_infile self = Raise e ->
  run_events self = [Finished (outfile self) (exn_str e) ∅].
Proof. intros Hr. rewrite run_events_cases, Hr. reflexivity. Qed.

(** X8: when no value of the column is missing and the writer block
    raises, the rows have been classified and progress has reached 100
    before the failure is reported; the run ends with the [finished]
    signal carrying the text of the exception and an empty dictionary.
    Between the final 100 and that signal the only thing that happens
    is that the failing writer leaves a file at the destination, when
    it had got as far as creating it. *)
Theorem save_failure_reported (self : Worker) (df : DataFrame) (e : exn) :
  read_infile self = Return df -> COLUMN ∈ columns df ->
  forallb is_text (loop_values df) = true ->
  excel_save (outfile self) (write_sheets (classified df) ALL_BUCKETS []) = Raise e ->
  run_events self =
    loop_events df ++
    clobbers (outfile self) (write_sheets (classified df) ALL_BUCKETS []) ++
    [Finished (outfile self) (exn_str e) ∅] /\
  last (progress_of (run_events self)) = Some 100%Z /\
  (excel_touches (outfile self) (write_sheets (classified df) ALL_BUCKETS []) = true ->
   Clobbered (outfile self) ∈ run_events self).
Proof.
  intros Hr Hc Htext Hs.
  rewrite run_events_cases, Hr, bool_decide_eq_true_2, Htext, Hs by exact Hc.
  split; [reflexivity|]. split.
  - rewrite progress_of_app, loop_events_progress.
    replace (progress_of (clobbers _ _ ++ _)) with (@nil Z)
      by (unfold clobbers; destruct (excel_touches _ _); reflexivity).
    rewrite app_nil_r. apply last_snoc.
  - intros Ht. unfold clobbers. rewrite Ht.
    apply elem_of_app. right. apply list_elem_of_here.
Qed.

(** X9: a run over a table of [n] rows in which no value of the
    column is missing reports one percentage for every started block
    of 50 rows and the final 100, that is [(n + 49) / 50 + 1] values;
    the first is 0 when there is a row; and for at most 2^53 rows every
    value before the last is at most 99, so 100 is reported only once
    the loop is over.  A run that meets a missing value after [k]
    texts reports [(k + 49) / 50] values, none of them the final 100:
    for at most 2^53 rows all are at most 99. *)
Theorem loop_progress_shape (self : Worker) (df : DataFrame) :
  read_infile self = Return df -> COLUMN ∈ columns df ->
  (forallb is_text (loop_values df) = true ->
   length (progress_of (run_events self)) = ((df_len df + 49) / 50 + 1)%nat /\
   (df_len df <> 0%nat -> head (progress_of (run_events self)) = Some 0%Z) /\
   ((Z.of_nat (df_len df) <= 2 ^ 53)%Z ->
    exists ps, progress_of (run_events self) = ps ++ [100%Z] /\
               Forall (fun p => (0 <= p <= 99)%Z) ps)) /\
  (forallb is_text (loop_values df) = false ->
   length (progress_of (run_events self)) =
     ((texts_before (loop_values df) + 49) / 50)%nat /\
   ((Z.of_nat (df_len df) <= 2 ^ 53)%Z ->
    Forall (fun p => (0 <= p <= 99)%Z) (progress_of (run_events self)))).
Proof.
  intros Hr Hc.
  assert (Hbelow : forall n, (n <= df_len df)%nat -> (Z.of_nat (df_len df) <= 2 ^ 53)%Z ->
            Forall (fun p => (0 <= p <= 99)%Z) (checkpoints (df_len df) 0 n)).
  { intros n Hn Hbig. apply Forall_forall. intros p Hp.
    apply checkpoints_elem in Hp as (j & Hj & ->).
    apply percent_value_below_100; [lia | exact Hbig]. }
  rewrite run_events_cases, Hr, bool_decide_eq_true_2 by exact Hc.
  split; intros Htext; rewrite Htext.
  - assert (Hp : progress_of
              (loop_events df ++
               match excel_save (outfile self)
                       (write_sheets (classified df) ALL_BUCKETS []) with
               | Return _ =>
                   [Saved (outfile self) (write_sheets (classified df) ALL_BUCKETS []);
                    Finished (outfile self) [] (final_counts df)]
               | Raise e =>
                   clobbers (outfile self) (write_sheets (classified df) ALL_BUCKETS []) ++
                   [Finished (outfile self) (exn_str e) ∅]
               end) = checkpoints (df_len df) 0 (df_len df) ++ [100%Z]).
    { rewrite progress_of_app, loop_events_progress.
      destruct (excel_save _ _); [apply app_nil_r|].
      unfold clobbers. destruct (excel_touches _ _); apply app_nil_r. }
    rewrite Hp. split; [|split].
    + rewrite length_app, checkpoints_length. reflexivity.
    + intros Hne. destruct (df_len df) as [| n]; [contradiction Hne; reflexivity|].
      reflexivity.
    + intros Hbig. exists (checkpoints (df_len df) 0 (df_len df)).
      split; [reflexivity | apply Hbelow; [lia | exact Hbig]].
  - rewrite progress_of_app, progress_of_Progress, app_nil_r. split.
    + apply checkpoints_length.
    + apply Hbelow. rewrite <- loop_values_len. apply texts_before_le.
Qed.

End WorkbookFacts.

(** ** Number formatting *)

Lemma chars_uint_uint_chars (u : Decimal.uint) : chars_uint (uint_chars u) = Some u.
Proof. induction u; cbn; rewrite ?IHu; reflexivity. Qed.

Lemma uint_chars_digits (u : Decimal.uint) : Forall (fun c => c <> 44) (uint_chars u).
Proof. induction u; cbn; constructor; (discriminate || assumption). Qed.

Lemma filter_rev {A} (P : A -> Prop) `{!forall x, Decision (P x)} (l : list A) :
  filter P (rev l) = rev (filter P l).
Proof.
  induction l as [| x l IH]; [reflexivity|].
  cbn [rev]. rewrite filter_app, IH, filter_cons, filter_cons, filter_nil.
  destruct (decide (P x)); [reflexivity | apply app_nil_r].
Qed.

Lemma group3_filter (k : nat) (ds : str) :
  Forall (fun c => c <> 44) ds -> filter (fun c => c <> 44) (group3 k ds) = ds.
Proof.
  intros Hds. revert k. induction Hds as [| d ds Hd Hds IH]; intros k; [reflexivity|].
  cbn [group3]. destruct (k =? 3)%nat.
  - rewrite (filter_cons _ 44), decide_False by (intros Hne; apply Hne; reflexivity).
    rewrite (filter_cons _ d), decide_True by exact Hd. rewrite IH. reflexivity.
  - rewrite (filter_cons _ d), decide_True by exact Hd. rewrite IH. reflexivity.
Qed.

(** X10: the thousands format of [_done] ([f"{n:,}"]) only inserts
    commas: removing them gives back the decimal digits of the number,
    and reading those gives back the number. *)
Theorem format_thousands_round_trip (n : nat) :
  parse_thousands (format_thousands n) = Some n /\
  filter (fun c => c <> 44) (format_thousands n) = decimal n.
Proof.
  assert (E : filter (fun c => c <> 44) (format_thousands n) = decimal n).
  { unfold format_thousands.
    etransitivity; [apply (filter_rev (A := N))|].
    rewrite group3_filter; [apply rev_involutive|].
    apply Forall_forall. intros c Hc. apply list_elem_of_In, in_rev, list_elem_of_In in Hc.
    pose proof (uint_chars_digits (Nat.to_uint n)) as Hd.
    rewrite Forall_forall in Hd. apply Hd, Hc. }
  split; [|exact E].
  unfold parse_thousands. rewrite E. unfold decimal.
  rewrite chars_uint_uint_chars. cbn. rewrite DecimalNat.Unsigned.of_to. reflexivity.
Qed.

Example format_thousands_examples :
  format_thousands 0 = lit "0" /\ format_thousands 999 = lit "999" /\
  format_thousands 1000 = lit "1,000" /\ format_thousands 4096 = lit "4,096".
Proof. vm_compute. repeat split; reflexivity. Qed.

(** ** The window *)

Lemma filter_agree {A} (P Q : A -> Prop) `{!forall x, Decision (P x)}
    `{!forall x, Decision (Q x)} (l : list A) :
  (forall x, x ∈ l -> P x <-> Q x) -> filter P l = filter Q l.
Proof.
  induction l as [| x l IH]; intros Hpq; [reflexivity|].
  rewrite !filter_cons, IH by (intros y Hy; apply Hpq; right; exact Hy).
  destruct (decide (P x)) as [Hp | Hp], (decide (Q x)) as [Hq | Hq]; try reflexivity;
    exfalso; [apply Hq | apply Hp]; apply (Hpq x); (apply list_elem_of_here || assumption).
Qed.

Lemma ljust_bucket (b : str) : b ∈ ALL_BUCKETS -> length (ljust 22 b) = 22%nat.
Proof.
  intros Hb. unfold ALL_BUCKETS, BUCKETS in Hb. simpl in Hb.
  repeat (apply elem_of_cons in Hb as [-> | Hb]; [reflexivity|]).
  inversion Hb.
Qed.

Section WindowFacts.

Context `{DomainLib} `{TableIO} `{Desktop}.

Lemma deliver_app (evs1 evs2 : list event) (self : AppState) :
  App.deliver (evs1 ++ evs2) self =
  let '(self1, ui1) := App.deliver evs1 self in
  let '(self2, ui2) := App.deliver evs2 self1 in
  (self2, ui1 ++ ui2).
Proof.
  revert self. induction evs1 as [| ev evs1 IH]; intros self.
  - cbn. destruct (App.deliver evs2 self). reflexivity.
  - cbn [app App.deliver]. destruct (App.on_signal ev self) as [self1 ui1].
    rewrite IH. destruct (App.deliver evs1 self1) as [self2 ui2].
    destruct (App.deliver evs2 self2) as [self3 ui3]. rewrite app_assoc. reflexivity.
Qed.

(** Progress signals only move the bar. *)
Lemma deliver_progress (ps : list Z) (self : AppState) :
  App.deliver (Progress <$> ps) self =
  ({| in_edit := in_edit self; out_edit := out_edit self;
      bar := default (bar self) (last ps); run_btn := run_btn self;
      worker := worker self |}, []).
Proof.
  revert self. induction ps as [| p ps IH]; intros self.
  - destruct self. reflexivity.
  - rewrite fmap_cons. cbn [App.deliver App.on_signal]. rewrite IH.
    cbn [in_edit out_edit bar run_btn worker app].
    rewrite last_cons. destruct (last ps); reflexivity.
Qed.

(** What [_done] does not depend on: the bar and the button. *)
Lemma done_resets (outfile : Path) (error : str) (counts : gmap str nat)
    (self : AppState) (b : Z) (r : bool) :
  App._done outfile error counts
    {| in_edit := in_edit self; out_edit := out_edit self;
       bar := b; run_btn := r; worker := worker self |} =
  App._done outfile error counts self.
Proof. reflexivity. Qed.

Lemma deliver_loop_then (df : DataFrame) (tail : list event) (self : AppState) :
  App.deliver (loop_events df ++ tail) self =
  App.deliver tail
    {| in_edit := in_edit self; out_edit := out_edit self;
       bar := 100; run_btn := run_btn self; worker := worker self |}.
Proof.
  unfold loop_events. rewrite <- app_assoc, deliver_app, deliver_progress.
  cbn [app App.deliver App.on_signal in_edit out_edit bar run_btn worker].
  destruct (App.deliver tail _) as [self2 ui2] eqn:E. reflexivity.
Qed.

Lemma deliver_finished (outfile : Path) (error : str) (counts : gmap str nat)
    (self : AppState) :
  App.deliver [Finished outfile error counts] self = App._done outfile error counts self.
Proof.
  cbn. destruct (App._done outfile error counts self) as [s u].
  rewrite app_nil_r. reflexivity.
Qed.

Lemma deliver_saved (dest : Path) (book : list Sheet) (evs : list event) (self : AppState) :
  App.deliver (Saved dest book :: evs) self = App.deliver evs self.
Proof. cbn. destruct (App.deliver evs self). reflexivity. Qed.

Lemma deliver_clobbers (dest : Path) (book : list Sheet) (evs : list event)
    (self : AppState) :
  App.deliver (clobbers dest book ++ evs) self = App.deliver evs self.
Proof.
  unfold clobbers. destruct (excel_touches dest book); [|reflexivity].
  cbn. destruct (App.deliver evs self). reflexivity.
Qed.

(** Handling the signals of a whole run comes to the one call of
    [_done] for its [finished] signal. *)
Lemma deliver_run (w : Worker) (self : AppState) :
  exists error counts,
    last (run_events w) = Some (Finished (outfile w) error counts) /\
    App.deliver (run_events w) self = App._done (outfile w) error counts self.
Proof.
  rewrite run_events_cases.
  destruct (read_infile w) as [df | e].
  - destruct (bool_decide (COLUMN ∈ columns df)).
    + destruct (forallb is_text (loop_values df)).
      * rewrite deliver_loop_then.
        destruct (excel_save _ _) as [u | e].
        -- exists [], (final_counts df). split; [rewrite last_app; reflexivity|].
           rewrite deliver_saved, deliver_finished. apply done_resets.
        -- exists (exn_str e), ∅. split; [rewrite !app_assoc; apply last_snoc|].
           rewrite deliver_clobbers, deliver_finished. apply done_resets.
      * exists float_has_no_lower, ∅. split; [apply last_snoc|].
        rewrite deliver_app, deliver_progress, deliver_finished.
        rewrite done_resets.
        destruct (App._done _ _ _ self) as [s u]. reflexivity.
    + eexists _, _. split; [reflexivity | apply deliver_finished].
  - eexists _, _. split; [reflexivity | apply deliver_finished].
Qed.

End WindowFacts.

Lemma saved_of_loop_events (df : DataFrame) : saved_of (loop_events df) = [].
Proof.
  unfold saved_of, loop_events. rewrite omap_app.
  induction (checkpoints (df_len df) 0 (df_len df)) as [| p ps IH]; [reflexivity | exact IH].
Qed.

Section WindowDisplay.

Context `{DomainLib} `{TableIO} `{Desktop}.

Lemma done_boxes (outfile : Path) (error : str) (counts : gmap str nat) (self : AppState) :
  run_btn (fst (App._done outfile error counts self)) = true /\
  bar (fst (App._done outfile error counts self)) = 0%Z /\
  in_edit (fst (App._done outfile error counts self)) = in_edit self /\
  length (List.filter is_box (snd (App._done outfile error counts self))) = 1%nat.
Proof.
  unfold App._done. destruct (bool_decide (error = [])); cbn [negb].
  - destruct (startswith platform (lit "win")); repeat split; reflexivity.
  - repeat split; reflexivity.
Qed.

Lemma done_ui_indep (outfile : Path) (error : str) (counts : gmap str nat)
    (st self : AppState) :
  snd (App._done outfile error counts st) = snd (App._done outfile error counts self).
Proof. unfold App._done. destruct (negb _); reflexivity. Qed.

(** X11: a click on Run with an input path that does not exist shows
    one warning and changes nothing.  Otherwise a worker is started on
    the stripped input path, and once its signals are handled the Run
    button is enabled again, the bar is back at 0, the input field is
    untouched and exactly one message box has been shown, the one
    [_done] builds for the [finished] signal of the run. *)
Theorem session_ends_ready (self : AppState) :
  if path_exists (path_of (strip (in_edit self))) then
    run_btn (fst (App.session self)) = true /\
    bar (fst (App.session self)) = 0%Z /\
    in_edit (fst (App.session self)) = in_edit self /\
    length (List.filter is_box (snd (App.session self))) = 1%nat /\
    exists w error counts,
      infile w = path_of (strip (in_edit self)) /\
      last (run_events w) = Some (Finished (outfile w) error counts) /\
      snd (App.session self) = Started w :: snd (App._done (outfile w) error counts self)
  else
    App.session self =
    (self, [WarningBox (lit "Error") (lit "Select a valid input file.")]).
Proof.
  unfold App.session, App._run.
  destruct (path_exists (path_of (strip (in_edit self)))); [|reflexivity].
  cbn [negb].
  set (self1 := if negb (bool_decide (strip (out_edit self) = [])) then self
                else App._suggest_out self (path_of (strip (in_edit self)))).
  set (w := {| infile := path_of (strip (in_edit self)); outfile := _ |}).
  set (st := {| in_edit := in_edit self1; run_btn := false; worker := Some w |}).
  destruct (deliver_run w st) as (error & counts & Hlast & Hdel).
  rewrite Hdel.
  assert (Hin : in_edit self1 = in_edit self).
  { unfold self1. destruct (negb _); reflexivity. }
  destruct (App._done (outfile w) error counts st) as [s2 ui2] eqn:E.
  pose proof (done_boxes (outfile w) error counts st) as (Hb & Hbar & Hi & Hbox).
  rewrite E in Hb, Hbar, Hi, Hbox. cbn [fst snd] in *.
  split; [exact Hb|]. split; [exact Hbar|]. split; [rewrite Hi; exact Hin|].
  split; [exact Hbox|].
  exists w, error, counts. split; [reflexivity|]. split; [exact Hlast|].
  f_equal. transitivity (snd (App._done (outfile w) error counts st));
    [rewrite E; reflexivity | apply done_ui_indep].
Qed.

(** X12: a run whose [try] block raises is shown in a "Failed" box
    with the text of the exception when that text is not empty; when
    the text is empty, [_done] takes the run for a success and shows
    the "Done" box announcing a saved workbook with a total of 0. *)
Theorem failure_display (w : Worker) (e : exn) (self : AppState) :
  fst (run_body w []) = Raise e ->
  (exn_str e <> [] ->
   snd (App.deliver (run_events w) self) = [CriticalBox (lit "Failed") (exn_str e)]) /\
  (exn_str e = [] ->
   snd (App.deliver (run_events w) self) =
     DoneBox (lit "Done") (summary (outfile w) ∅) ::
     (if startswith platform (lit "win")
      then [Spawned (lit "explorer /select," ++ [34] ++ normpath (outfile w) ++ [34])]
      else []) /\
   summary (outfile w) ∅ =
     lit "Workbook saved to:" ++ [10] ++ outfile w ++ [10; 10] ++
     lit "Total processed: 0" ++ [10]).
Proof.
  intros Hfail.
  assert (Hev : exists tr, run_events w = tr ++ [Finished (outfile w) (exn_str e) ∅]).
  { rewrite run_events_body. destruct (run_body w []) as [r tr].
    cbn [fst] in Hfail. subst r. exists tr. reflexivity. }
  destruct Hev as (tr & Hev).
  destruct (deliver_run w self) as (error & counts & Hlast & Hdel).
  rewrite Hev, last_snoc in Hlast. injection Hlast as <- <-.
  rewrite Hdel. split.
  - intros Hne. unfold App._done. rewrite bool_decide_eq_false_2 by exact Hne. reflexivity.
  - intros He. unfold App._done. rewrite bool_decide_eq_true_2 by exact He.
    split; [reflexivity|].
    assert (Hb : breakdown ∅ = []) by reflexivity.
    unfold summary. rewrite Hb, bool_decide_eq_true_2 by reflexivity.
    cbn [negb str_join]. rewrite lookup_empty. cbn [default].
    change (format_thousands 0) with (lit "0").
    rewrite <- !app_assoc. reflexivity.
Qed.

(** X13: after a run whose [try] block completes, one workbook has
    been saved at the output path, and the "Done" box shows the
    summary of the counts: the total is the number of input rows, and
    the break-down has one line per sheet of the workbook, in the same
    order, with the sheet's name padded to 22 columns and its number of
    rows. *)
Theorem success_display (w : Worker) (self : AppState) :
  fst (run_body w []) = Return tt ->
  exists df book,
    read_infile w = Return df /\
    saved_of (run_events w) = [(outfile w, book)] /\
    snd (App.deliver (run_events w) self) =
      DoneBox (lit "Done") (summary (outfile w) (final_counts df)) ::
      (if startswith platform (lit "win")
       then [Spawned (lit "explorer /select," ++ [34] ++ normpath (outfile w) ++ [34])]
       else []) /\
    default 0%nat (final_counts df !! lit "TOTAL") = df_len df /\
    breakdown (final_counts df) = sheet_line <$> book /\
    Forall (fun s => length (ljust 22 (sheet_name s)) = 22%nat) book.
Proof.
  intros Hok. destruct (run_body_returns w Hok) as (df & Hr & Hc & Htext & Hsave).
  pose proof (run_events_cases w) as Hev.
  rewrite Hr, bool_decide_eq_true_2, Htext, Hsave in Hev by exact Hc.
  exists df, (write_sheets (classified df) ALL_BUCKETS []).
  split; [exact Hr|]. split; [|split; [|split; [|split]]].
  - rewrite Hev. unfold saved_of. rewrite omap_app.
    change (omap _ (loop_events df)) with (saved_of (loop_events df)).
    rewrite saved_of_loop_events. reflexivity.
  - destruct (deliver_run w self) as (error & counts & Hlast & Hdel).
    rewrite Hev, last_app in Hlast. cbn in Hlast. injection Hlast as <- <-.
    rewrite Hdel. reflexivity.
  - rewrite (proj1 (final_counts_spec df)). reflexivity.
  - unfold breakdown. rewrite write_sheets_app. cbn [app].
    rewrite <- list_fmap_compose.
    rewrite (filter_agree _ (fun b => has_rows (classified df) b = true)).
    + apply list_fmap_ext. intros i b Hb.
      apply list_elem_of_lookup_2, list_elem_of_filter in Hb as [Hrows Hb].
      unfold sheet_line. cbn. rewrite (slice_ALL_BUCKETS b Hb).
      rewrite (final_counts_bucket df b Hb), Hrows. reflexivity.
    + intros b Hb. rewrite (final_counts_bucket df b Hb).
      destruct (has_rows (classified df) b) eqn:Hrows; cbn.
      * apply has_rows_length in Hrows. tauto.
      * split; [intros Hne; contradiction Hne; reflexivity | discriminate].
  - apply Forall_forall. intros s Hs. rewrite write_sheets_app in Hs. cbn [app] in Hs.
    apply list_elem_of_fmap in Hs as (b & -> & Hb).
    apply list_elem_of_filter in Hb as [_ Hb].
    cbn. rewrite (slice_ALL_BUCKETS b Hb). apply ljust_bucket, Hb.
Qed.

End WindowDisplay.

(** ** The further facts on the reference libraries *)

Lemma classify_ignores_case_on_rules123_witness :
  Ref.latin1_lower (Ref.latin1_lower (lit "EXAMPLE.COM.CN")) =
    Ref.latin1_lower (lit "EXAMPLE.COM.CN") /\
  rule1 (suffix (Ref.psl_extract (Ref.latin1_lower (lit "EXAMPLE.COM.CN")))) = true /\
  Ref.classify (lit "EXAMPLE.COM.CN") = Ref.classify (Ref.latin1_lower (lit "EXAMPLE.COM.CN")).
Proof.
  split; [reflexivity|]. split; [reflexivity|].
  apply (@classify_ignores_case_on_rules123 Ref.domain_lib (lit "EXAMPLE.COM.CN"));
    reflexivity.
Defined.

Lemma padding_keeps_label_witness :
  forallb py_isspace [32; 9] = true /\ forallb py_isspace [10] = true /\
  @label_row Ref.domain_lib (<[COLUMN := [32; 9] ++ lit "example.cn" ++ [10]]> ∅)
    !! lit "bucket" = Some (lit "ASCII.CN").
Proof.
  split; [reflexivity|]. split; [reflexivity|].
  exact (proj1 (@padding_keeps_label Ref.domain_lib ∅ [32; 9] (lit "example.cn") [10]
                  eq_refl eq_refl)).
Defined.

Lemma workbook_agrees_with_counts_witness :
  fst (@run_body Ref.domain_lib (Ref.table_io Ref.sample_table) Ref.worker []) = Return tt /\
  exists (book : list Sheet) (counts : gmap str nat),
    saved_of (Ref.run_on Ref.sample_table) = [(lit "out.xlsx", book)] /\
    (forall s, s ∈ book -> counts !! sheet_name s = Some (length (rows (sheet_data s)))) /\
    sum_list_with (fun s => length (rows (sheet_data s))) book = 4%nat.
Proof.
  assert (Hok : fst (@run_body Ref.domain_lib (Ref.table_io Ref.sample_table) Ref.worker [])
                = Return tt) by (vm_compute; reflexivity).
  split; [exact Hok|].
  destruct (@workbook_agrees_with_counts Ref.domain_lib (Ref.table_io Ref.sample_table)
              Ref.worker Hok) as (df & book & counts & Hr & Hev & Hsheets & _ & Hsum).
  injection Hr as <-. exists book, counts. split; [|split; [exact Hsheets | exact Hsum]].
  unfold Ref.run_on. rewrite Hev. unfold saved_of. rewrite omap_app.
  change (omap _ (loop_events Ref.sample_table)) with (saved_of (loop_events Ref.sample_table)).
  rewrite saved_of_loop_events. reflexivity.
Defined.

Lemma read_failure_reported_witness :
  @read_infile Ref.domain_lib (Ref.table_io Ref.sample_table) RefDesk.lost_worker =
    Raise (OtherError (lit "No such file or directory")) /\
  @run_events Ref.domain_lib (Ref.table_io Ref.sample_table) RefDesk.lost_worker =
    [Finished (lit "out.xlsx") (lit "No such file or directory") ∅].
Proof.
  split; [reflexivity|].
  apply (@read_failure_reported Ref.domain_lib (Ref.table_io Ref.sample_table)
           RefDesk.lost_worker (OtherError (lit "No such file or directory"))).
  reflexivity.
Defined.

Lemma save_failure_reported_witness :
  Ref.save_nonempty (lit "out.xlsx")
    (write_sheets (@classified Ref.domain_lib Ref.empty_table) ALL_BUCKETS []) =
    Raise (OtherError (lit "At least one sheet must be visible")) /\
  Ref.run_on Ref.empty_table =
    [ Progress 100; Clobbered (lit "out.xlsx");
      Finished (lit "out.xlsx") (lit "At least one sheet must be visible") ∅ ] /\
  last (progress_of (Ref.run_on Ref.empty_table)) = Some 100%Z /\
  Clobbered (lit "out.xlsx") ∈ Ref.run_on Ref.empty_table.
Proof.
  split; [reflexivity|].
  destruct (@save_failure_reported Ref.domain_lib (Ref.table_io Ref.empty_table) Ref.worker
              Ref.empty_table (OtherError (lit "At least one sheet must be visible")))
    as (Hev & Hlast & Hfile).
  - reflexivity.
  - apply (bool_decide_unpack _). vm_compute. exact I.
  - reflexivity.
  - reflexivity.
  - split; [exact Hev|]. split; [exact Hlast|]. apply Hfile. reflexivity.
Defined.

Lemma loop_progress_shape_witness :
  (length (progress_of (Ref.run_on Ref.sample_table)) = 2%nat /\
   head (progress_of (Ref.run_on Ref.sample_table)) = Some 0%Z /\
   exists ps, progress_of (Ref.run_on Ref.sample_table) = ps ++ [100%Z] /\
              Forall (fun p => (0 <= p <= 99)%Z) ps) /\
  (length (progress_of (Ref.run_on_na Ref.blank_cell_table)) = 1%nat /\
   Forall (fun p => (0 <= p <= 99)%Z) (progress_of (Ref.run_on_na Ref.blank_cell_table))).
Proof.
  split.
  - destruct (@loop_progress_shape Ref.domain_lib (Ref.table_io Ref.sample_table)
                Ref.worker Ref.sample_table) as [Htext _].
    + reflexivity.
    + apply (bool_decide_unpack _). vm_compute. exact I.
    + destruct (Htext eq_refl) as (Hlen & Hhead & Hbelow).
      split; [exact Hlen|]. split.
      * apply Hhead. discriminate.
      * apply Hbelow. vm_compute. discriminate.
  - destruct (@loop_progress_shape Ref.domain_lib (Ref.table_io_na Ref.blank_cell_table)
                Ref.worker Ref.blank_cell_table) as [_ Hmissing].
    + reflexivity.
    + apply (bool_decide_unpack _). vm_compute. exact I.
    + destruct (Hmissing eq_refl) as (Hlen & Hbelow).
      split; [exact Hlen|]. apply Hbelow. vm_compute. discriminate.
Defined.

Lemma failure_display_witness :
  fst (@run_body Ref.domain_lib RefDesk.silent_io Ref.worker []) = Raise (OtherError []) /\
  snd (@App.deliver RefDesk.desktop
         (@run_events Ref.domain_lib RefDesk.silent_io Ref.worker) RefDesk.window) =
    [DoneBox (lit "Done")
       (lit "Workbook saved to:" ++ [10] ++ lit "out.xlsx" ++ [10; 10] ++
        lit "Total processed: 0" ++ [10])].
Proof.
  assert (Hfail : fst (@run_body Ref.domain_lib RefDesk.silent_io Ref.worker [])
                  = Raise (OtherError [])) by reflexivity.
  split; [exact Hfail|].
  destruct (@failure_display Ref.domain_lib RefDesk.silent_io RefDesk.desktop Ref.worker
              (OtherError []) RefDesk.window Hfail) as (_ & Hquirk).
  destruct (Hquirk eq_refl) as [Hbox Hsum]. rewrite Hbox, Hsum. reflexivity.
Defined.

Lemma success_display_witness :
  fst (@run_body Ref.domain_lib (Ref.table_io Ref.sample_table) Ref.worker []) = Return tt /\
  exists book,
    saved_of (Ref.run_on Ref.sample_table) = [(lit "out.xlsx", book)] /\
    breakdown (@final_counts Ref.domain_lib Ref.sample_table) = sheet_line <$> book /\
    breakdown (@final_counts Ref.domain_lib Ref.sample_table) =
      [ lit "ASCII.CN               1"; lit ".COM.CN                2";
        lit "UNCLASSIFIED           1" ].
Proof.
  assert (Hok : fst (@run_body Ref.domain_lib (Ref.table_io Ref.sample_table) Ref.worker [])
                = Return tt) by (vm_compute; reflexivity).
  split; [exact Hok|].
  destruct (@success_display Ref.domain_lib (Ref.table_io Ref.sample_table) RefDesk.desktop
              Ref.worker RefDesk.window Hok) as (df & book & Hr & Hsaved & _ & _ & Hlines & _).
  injection Hr as <-. exists book.
  split; [exact Hsaved|]. split; [exact Hlines|]. vm_compute. reflexivity.
Defined.

(** A whole session on the reference desktop: the input field holds
    [in.csv] with blanks around it, the output field is empty. *)
Example session_on_sample :
  @App.session Ref.domain_lib (Ref.table_io Ref.sample_table) RefDesk.desktop RefDesk.window =
  ({| in_edit := lit " in.csv ";
      out_edit := lit "/home/user/sorted_CN_domains_20250514.xlsx";
      bar := 0; run_btn := true;
      worker := Some {| infile := lit "in.csv";
                        outfile := lit "/home/user/sorted_CN_domains_20250514.xlsx" |} |},
   [ Started {| infile := lit "in.csv";
                outfile := lit "/home/user/sorted_CN_domains_20250514.xlsx" |};
     DoneBox (lit "Done")
       (@summary (lit "/home/user/sorted_CN_domains_20250514.xlsx")
          (@final_counts Ref.domain_lib Ref.sample_table)) ]).
Proof. vm_compute. reflexivity. Qed.
